(** * jest-jasmine2: the Jasmine 2 adapter of Jest

    A shallow embedding of [packages/jest-jasmine2/src/index.js]: the
    sequence-equality tester [iterableEquality], the call matchers
    [toBeCalled], [lastCalledWith] and [toBeCalledWith] with their diagnostic
    renderer [getActualCalls], the patched [buildExpectationResult], and the
    aggregation of the reporter's results with the snapshot state at the end
    of [jasmine2]. *)

From Stdlib Require Import ZArith String Ascii DecimalString.
From stdpp Require Import gmap strings list fin_maps.

Set Warnings "-register-all".

Local Open Scope string_scope.
Local Open Scope Z_scope.

(** ** JavaScript values seen by the equality tester and the matchers

    Values are finite trees.  Numbers are integers (no matcher below does
    arithmetic on a value).  An object carries the identity of what its
    [constructor] property evaluates to, the elements its [Symbol.iterator]
    method yields when it has one (a fresh iterator on every call, as [Set],
    [Map] and user collections give; the sequence is finite), and its own
    enumerable properties. *)

Inductive value : Type :=
| VUndefined
| VNull
| VBool (b : bool)
| VNum (n : Z)
| VStr (s : string)
| VFunction (id : positive)
| VArray (elems : list value)
| VObject (ctor : positive) (iter : option (list value))
    (props : list (string * value)).

(** The results of [typeof]. *)
Inductive jstype : Type :=
| TUndefined | TObject | TBoolean | TNumber | TString | TFunction.

#[global] Instance jstype_eq_dec : EqDecision jstype.
Proof. solve_decision. Defined.

Definition typeof (v : value) : jstype :=
  match v with
  | VUndefined => TUndefined
  | VNull => TObject
  | VBool _ => TBoolean
  | VNum _ => TNumber
  | VStr _ => TString
  | VFunction _ => TFunction
  | VArray _ => TObject
  | VObject _ _ _ => TObject
  end.

(** [ToBoolean]: what [if (v)] and [!v] test. *)
Definition truthy (v : value) : bool :=
  match v with
  | VUndefined | VNull => false
  | VBool b => b
  | VNum n => negb (n =? 0)
  | VStr s => negb (String.eqb s EmptyString)
  | VFunction _ | VArray _ | VObject _ _ _ => true
  end.

(** [Array.isArray]. *)
Definition isArray (v : value) : bool :=
  match v with
  | VArray _ => true
  | _ => false
  end.

(** [v != null]: false of [null] and of [undefined]. *)
Definition notLooselyNull (v : value) : bool :=
  match v with
  | VUndefined | VNull => false
  | _ => true
  end.

(** Whether [v[Symbol.iterator]] is truthy, for a [v] that is neither [null]
    nor [undefined]: strings and arrays inherit the method, an object has it
    when it carries an iteration sequence. *)
Definition hasSymbolIterator (v : value) : bool :=
  match v with
  | VStr _ | VArray _ => true
  | VObject _ (Some _) _ => true
  | _ => false
  end.

(** The value of [v.constructor], by identity; read by the tester only once
    both operands are known to be objects carrying an iteration sequence. *)
Definition constructorOf (v : value) : option positive :=
  match v with
  | VObject c _ _ => Some c
  | _ => None
  end.

(** The elements [v[Symbol.iterator]()] yields, in order. *)
Definition elementsOf (v : value) : list value :=
  match v with
  | VArray l => l
  | VObject _ (Some l) _ => l
  | _ => []
  end.

(** The applicability condition in the specification's words: a non-null
    value of object type that is no array and exposes the iteration
    protocol. *)
Definition sequenceLike (v : value) : Prop :=
  v <> VNull /\ typeof v = TObject /\ isArray v = false
  /\ hasSymbolIterator v = true.

(** An iterator is the list of the elements it has not yet yielded;
    [next] yields [None] when [done] is true. *)
Definition iterator : Type := list value.

Definition next (it : iterator) : option value * iterator :=
  match it with
  | [] => (None, [])
  | x :: rest => (Some x, rest)
  end.

(** The custom equality testers this file hands to the host equality.
    [iterableEquality] passes a reference to itself ([[iterableEquality]]);
    whether and where the host calls it back is the host's business. *)
Inductive customTester : Type :=
| IterableEquality.

(** ** SequenceEquality: [iterableEquality] (index.js, lines 118-152) *)

Section SequenceEquality.

(** [jasmine.matchersUtil.equals(a, b, customTesters)], the engine's
    equality: part of the vendored engine, taken as a parameter.  The third
    argument is [None] when a call passes two arguments only. *)
Variable equals : value -> value -> option (list customTester) -> bool.

Definition hasIterator (object : value) : bool :=
  notLooselyNull object && hasSymbolIterator object.

(** The [for (const aValue of a)] loop with [bIterator] advanced in
    lockstep, and the check after it. *)
Fixpoint iterableEquality_loop (aValues : list value) (bIterator : iterator)
  : bool :=
  match aValues with
  | aValue :: aRest =>
      let '(nextB, bIterator') := next bIterator in
      match nextB with
      | None => false
      | Some bValue =>
          if negb (equals aValue bValue (Some [IterableEquality])) then false
          else iterableEquality_loop aRest bIterator'
      end
  | [] =>
      match fst (next bIterator) with
      | Some _ => false
      | None => true
      end
  end.

(** [None] is the [undefined] the tester returns to defer to the engine. *)
Definition iterableEquality (a b : value) : option bool :=
  if negb (bool_decide (typeof a = TObject))
     || negb (bool_decide (typeof b = TObject))
     || isArray a
     || isArray b
     || negb (hasIterator a)
     || negb (hasIterator b)
  then None
  else if negb (bool_decide (constructorOf a = constructorOf b)) then Some false
  else Some (iterableEquality_loop (elementsOf a) (elementsOf b)).

End SequenceEquality.

(** ** Arrays and strings of the host language *)

(** The line feed of the template strings. *)
Definition nl : string := String (ascii_of_nat 10) EmptyString.

(** [String(n)] of an integer. *)
Definition string_of_Z (n : Z) : string :=
  NilZero.string_of_int (Z.to_int n).

(** [Array.prototype.slice(start)]: a negative [start] counts from the end,
    and both ends are clamped to the array. *)
Definition Array_slice {A : Type} (start : Z) (l : list A) : list A :=
  let len := Z.of_nat (length l) in
  let k := if start <? 0 then Z.max (len + start) 0 else Z.min start len in
  drop (Z.to_nat k) l.

(** [Array.prototype.join(separator)] on strings. *)
Fixpoint join (separator : string) (l : list string) : string :=
  match l with
  | [] => EmptyString
  | [s] => s
  | s :: rest => s ++ separator ++ join separator rest
  end.

(** [s] occurs in [t]. *)
Definition contains (t s : string) : Prop :=
  exists before after, t = before ++ s ++ after.

(** [Array.prototype.some]. *)
Definition Array_some {A : Type} (f : A -> bool) (l : list A) : bool :=
  existsb f l.

(** [calls[calls.length - 1]] on an array of argument arrays: [undefined]
    when the index is out of range. *)
Definition lastCall (calls : list (list value)) : value :=
  match last calls with
  | Some call => VArray call
  | None => VUndefined
  end.

(** ** The reporter's pretty-printer, and the record of its invocations

    Rendering is the one effect the matchers have: a computation in
    [Printer] threads the log of the values handed to
    [reporter.getFormatter().prettyPrint], oldest first. *)

Definition printLog : Type := list value.

Definition Printer (A : Type) : Type := printLog -> A * printLog.

Definition ret {A : Type} (x : A) : Printer A :=
  fun log => (x, log).

Definition bind {A B : Type} (m : Printer A) (k : A -> Printer B) : Printer B :=
  fun log => let '(x, log') := m log in k x log'.

Notation "x <- m ;; k" := (bind m (fun x => k))
  (at level 100, m at next level, right associativity).

(** [Array.prototype.map] with an effectful callback, first element first. *)
Fixpoint mapM {A B : Type} (f : A -> Printer B) (l : list A) : Printer (list B) :=
  match l with
  | [] => ret []
  | x :: rest => y <- f x ;; ys <- mapM f rest ;; ret (y :: ys)
  end.

(** A matcher either returns or throws an [Error] with a message. *)
Inductive completion (A : Type) : Type :=
| Return (result : A)
| Throw (error : string).

Arguments Return {A} result.
Arguments Throw {A} error.

(** The [message] property of a matcher's result: a data property holding
    a string, or an accessor ([get message() { ... }]) run on each read. *)
Inductive messageField : Type :=
| MessageValue (s : string)
| MessageGetter (getter : Printer string).

Record matchResult : Type := MatchResult {
  pass : bool;
  message : messageField;
}.

(** Reading [result.message]. *)
Definition readMessage (result : matchResult) : Printer string :=
  match message result with
  | MessageValue s => ret s
  | MessageGetter getter => getter
  end.

Definition isAccessor (m : messageField) : bool :=
  match m with
  | MessageGetter _ => true
  | MessageValue _ => false
  end.

(** ** Trackable targets

    A jasmine spy keeps call records behind [calls.all()]; a Jest mock
    function keeps its argument lists in [mock.calls]. *)

Record spyCall : Type := SpyCall {
  args : list value;
}.

(** The [calls] property of a target: falsy, or an object whose [all] is
    [undefined] or a method returning the call records. *)
Inductive callsProperty : Type :=
| CallsFalsy
| CallsObject (all : option (list spyCall)).

(** [mock] is [undefined] ([None]) or an object whose [calls] is the array
    of argument arrays. *)
Record target : Type := Target {
  target_calls : callsProperty;
  target_mock : option (list (list value));
}.

Definition CALL_PRINT_LIMIT : Z := 3.
Definition LAST_CALL_PRINT_LIMIT : Z := 1.

Definition isSpyLike (test : target) : bool :=
  match target_calls test with
  | CallsFalsy => false
  | CallsObject all => bool_decide (is_Some all)
  end.

Definition isMockLike (test : target) : bool :=
  bool_decide (is_Some (target_mock test)).

(** [isSpy ? actual.calls.all().map(x => x.args) : actual.mock.calls], as
    each matcher computes it after its guard. *)
Definition recordedCalls (isSpy : bool) (actual : target) : list (list value) :=
  if isSpy then
    match target_calls actual with
    | CallsObject (Some records) => map args records
    | _ => []
    end
  else default [] (target_mock actual).

(** A target the matchers accept: spy-like or mock-like. *)
Definition trackable (test : target) : bool :=
  isSpyLike test || isMockLike test.

(** ** CallMatchers and DiagnosticRenderer (index.js, lines 43-54, 176-288) *)

Section Matchers.

(** [reporter.getFormatter().prettyPrint] and [util.equals] belong to the
    reporter module and to the vendored engine: parameters. *)
Variable prettyPrint : value -> string.
Variable equals : value -> value -> option (list customTester) -> bool.

Definition reporter_prettyPrint (v : value) : Printer string :=
  fun log => (prettyPrint v, (log ++ [v])%list).

Definition getActualCalls (calls : list (list value)) (limit : Z)
  : Printer string :=
  let count := Z.of_nat (length calls) - limit in
  printed <- mapM (fun call => reporter_prettyPrint (VArray call))
               (Array_slice (- limit) calls) ;;
  ret (nl ++ "Actual call"
         ++ (if Z.of_nat (length calls) =? 1 then "" else "s") ++ ":" ++ nl
         ++ join ("," ++ nl) (rev printed)
         ++ (if 0 <? count
             then nl ++ "and " ++ string_of_Z count ++ " other call"
                     ++ (if count =? 1 then "" else "s") ++ "."
             else "")).

(** [toBeCalled]'s [compare(actual, expected)], applied to the matcher's
    arguments: [expected] is the first of them, [undefined] when none. *)
Definition toBeCalled (actual : target) (arguments : list value)
  : Printer (completion matchResult) :=
  let expected := hd VUndefined arguments in
  if truthy expected then
    ret (Throw
      "toBeCalled() does not accept parameters, use toBeCalledWith instead.")
  else
    let isSpy := isSpyLike actual in
    if negb isSpy && negb (isMockLike actual) then
      ret (Throw
        "toBeCalled() should be used on a mock function or a jasmine spy.")
    else
      let calls := recordedCalls isSpy actual in
      let pass := negb (Z.of_nat (length calls) =? 0) in
      let message :=
        if pass then "Expected not to be called"
        else "Expected to be called at least once" in
      ret (Return (MatchResult pass (MessageValue message))).

(** [lastCalledWith]'s [compare(actual)]; [arguments] are those after
    [actual] ([Array.prototype.slice.call(arguments, 1)]). *)
Definition lastCalledWith (actual : target) (arguments : list value)
  : Printer (completion matchResult) :=
  let isSpy := isSpyLike actual in
  if negb isSpy && negb (isMockLike actual) then
    ret (Throw
      "lastCalledWith() should be used on a mock function or a jasmine spy.")
  else
    let calls := recordedCalls isSpy actual in
    let expected := arguments in
    let pass := equals (lastCall calls) (VArray expected) None in
    if negb pass then
      ret (Return (MatchResult pass (MessageGetter (
        printed <- reporter_prettyPrint (VArray expected) ;;
        actualCalls <- getActualCalls calls LAST_CALL_PRINT_LIMIT ;;
        ret ("Wasn't last called with the expected values." ++ nl
               ++ "Expected call:" ++ nl ++ printed ++ actualCalls)))))
    else
      ret (Return (MatchResult pass (MessageGetter (
        printed <- reporter_prettyPrint (VArray expected) ;;
        ret ("Shouldn't have been last called with" ++ nl ++ printed))))).

Definition toBeCalledWith (actual : target) (arguments : list value)
  : Printer (completion matchResult) :=
  let isSpy := isSpyLike actual in
  if negb (isMockLike actual) && negb isSpy then
    ret (Throw
      "toBeCalledWith() should be used on a mock function or a jasmine spy.")
  else
    let calls := recordedCalls isSpy actual in
    let expected := arguments in
    let pass :=
      Array_some (fun call => equals (VArray call) (VArray expected) None) calls in
    if negb pass then
      ret (Return (MatchResult pass (MessageGetter (
        printed <- reporter_prettyPrint (VArray expected) ;;
        actualCalls <- getActualCalls calls CALL_PRINT_LIMIT ;;
        ret ("Was not called with the expected values." ++ nl
               ++ "Expected call:" ++ nl ++ printed ++ actualCalls)))))
    else
      ret (Return (MatchResult pass (MessageGetter (
        printed <- reporter_prettyPrint (VArray expected) ;;
        ret ("Shouldn't have been called with" ++ nl ++ printed))))).

End Matchers.

(** ** ResultAggregator: the callback on [reporter.getResults()]
    (index.js, lines 309-325) *)

(** The calls made to the snapshot collaborator, in order. *)
Inductive snapshotCall : Type :=
| HasUncheckedKeys
| RemoveUncheckedKeys
| Save (update : bool).

Definition isSave (call : snapshotCall) : bool :=
  match call with
  | Save _ => true
  | _ => false
  end.

(** [results.snapshot]. *)
Record snapshotSummary : Type := SnapshotSummary {
  fileDeleted : bool;
  added : Z;
  matched : Z;
  unmatched : Z;
  updated : Z;
}.

(** The reporter's result: what the reporter collected (left abstract),
    and the two properties the callback assigns. *)
Record testResult (Collected : Type) : Type := TestResult {
  collected : Collected;
  hasUncheckedKeys : bool;
  snapshot : snapshotSummary;
}.

Arguments TestResult {Collected} collected hasUncheckedKeys snapshot.
Arguments collected {Collected} t.
Arguments hasUncheckedKeys {Collected} t.
Arguments snapshot {Collected} t.

Section ResultAggregator.

(** [jest-snapshot]'s state object (with the snapshot file it holds) and its
    operations are another package: parameters.  [snapshot_save] returns
    [status.deleted] and the state after saving. *)
Variable SnapshotState : Type.
Variable snapshot_hasUncheckedKeys : SnapshotState -> bool.
Variable snapshot_removeUncheckedKeys : SnapshotState -> SnapshotState.
Variable snapshot_save : bool -> SnapshotState -> bool * SnapshotState.
Variables state_added state_matched state_unmatched state_updated
  : SnapshotState -> Z.

Variable Collected : Type.

(** The callback, given [config.updateSnapshot]; it threads the snapshot
    state and the trace of the calls made to it. *)
Definition jasmine2_results (updateSnapshot : bool)
    (results : testResult Collected)
    (snapshotState : SnapshotState) (trace : list snapshotCall)
  : testResult Collected * SnapshotState * list snapshotCall :=
  let hasUncheckedKeys := snapshot_hasUncheckedKeys snapshotState in
  let trace := (trace ++ [HasUncheckedKeys])%list in
  let '(snapshotState, trace) :=
    if updateSnapshot
    then (snapshot_removeUncheckedKeys snapshotState,
          (trace ++ [RemoveUncheckedKeys])%list)
    else (snapshotState, trace) in
  let '(deleted, snapshotState) := snapshot_save updateSnapshot snapshotState in
  let trace := (trace ++ [Save updateSnapshot])%list in
  (TestResult (collected results)
     (negb deleted && hasUncheckedKeys)
     (SnapshotSummary deleted
        (state_added snapshotState) (state_matched snapshotState)
        (state_unmatched snapshotState) (state_updated snapshotState)),
   snapshotState, trace).

End ResultAggregator.

Arguments jasmine2_results {SnapshotState} snapshot_hasUncheckedKeys
  snapshot_removeUncheckedKeys snapshot_save state_added state_matched
  state_unmatched state_updated {Collected} updateSnapshot results
  snapshotState trace.

(** ** FailureCapture: the patched [jasmine.buildExpectationResult]
    (index.js, lines 76-99)

    Copying is about identity, so here objects live in a heap and a value
    is a primitive or a reference. *)

Module FailureCapture.

Definition loc : Type := positive.

Inductive value : Type :=
| VUndefined
| VNull
| VBool (b : bool)
| VNum (n : Z)
| VStr (s : string)
| VFunction (l : loc)
| VObject (l : loc).

#[global] Instance value_eq_dec : EqDecision value.
Proof. solve_decision. Defined.

(** A heap object: the constructors [C] for which [o instanceof C] holds,
    and its properties. *)
Record jsObject : Type := Object {
  instanceOf : list loc;
  properties : gmap string value;
}.

(** The heap: the objects allocated so far. *)
Abbreviation heap := (gmap loc jsObject).

Definition typeof (v : value) : jstype :=
  match v with
  | VUndefined => TUndefined
  | VNull => TObject
  | VBool _ => TBoolean
  | VNum _ => TNumber
  | VStr _ => TString
  | VFunction _ => TFunction
  | VObject _ => TObject
  end.

Definition truthy (v : value) : bool :=
  match v with
  | VUndefined | VNull => false
  | VBool b => b
  | VNum n => negb (n =? 0)
  | VStr s => negb (String.eqb s EmptyString)
  | VFunction _ | VObject _ => true
  end.

(** [o.key]: [undefined] when the property is missing. *)
Definition getProperty (h : heap) (v : value) (key : string) : value :=
  match v with
  | VObject l | VFunction l =>
      match h !! l with
      | Some o => default VUndefined (properties o !! key)
      | None => VUndefined
      end
  | _ => VUndefined
  end.

(** [o.key = v] on the object at [l]. *)
Definition setProperty (h : heap) (l : loc) (key : string) (v : value)
  : heap :=
  alter (fun o => Object (instanceOf o) (<[key := v]> (properties o))) l h.

(** [v instanceof C] for a constructor [C]. *)
Definition isInstanceOf (h : heap) (v : value) (C : loc) : bool :=
  match v with
  | VObject l | VFunction l =>
      match h !! l with
      | Some o => bool_decide (C ∈ instanceOf o)
      | None => false
      end
  | _ => false
  end.

(** Modelled from the spec: [jasmine.util.clone], a function of the
    vendored engine (vendor/jasmine-2.4.1.js), of which the specification
    says that it "produce[s] a shallow structural copy" and that the fields
    then "hold independent shallow copies taken at failure time".  The copy
    is a new object with the fields of the original, the field values
    shared. *)
Definition clone (h : heap) (v : value) : value * heap :=
  match v with
  | VObject l =>
      match h !! l with
      | Some o => let l' := fresh (dom h) in (VObject l', <[l' := o]> h)
      | None => (v, h)
      end
  | _ => (v, h)
  end.

(** A value that is a primitive, or refers to an object the heap holds. *)
Definition allocated (h : heap) (v : value) : Prop :=
  match v with
  | VObject l | VFunction l => is_Some (h !! l)
  | _ => True
  end.

Section Builder.

(** [environment.global.Node]: [None] when the environment defines none,
    else the constructor. *)
Variable globalNode : option loc.

(** The language's [v > 0], with its coercions. *)
Variable greaterThanZero : value -> bool.

(** The engine's own builder, saved as [jasmineBuildExpectationResult]. *)
Variable Result : Type.
Variable jasmineBuildExpectationResult : heap -> loc -> Result.

(** [environment.global.Node && object instanceof environment.global.Node
    && object.nodeType > 0]. *)
Definition isHostNode (h : heap) (object : value) : bool :=
  match globalNode with
  | Some Node =>
      isInstanceOf h object Node
      && greaterThanZero (getProperty h object "nodeType")
  | None => false
  end.

Definition shallowCopy (h : heap) (object : value) : value * heap :=
  if negb (bool_decide (typeof object = TObject))
     || bool_decide (object = VNull)
     || isHostNode h object
  then (object, h)
  else clone h object.

(** The body of the patch up to the delegation: the heap, with [options]
    in it, as the engine's builder receives it. *)
Definition captureFailure (h : heap) (options : loc)
  : heap :=
  if negb (truthy (getProperty h (VObject options) "passed")) then
    let '(expected, h) :=
      shallowCopy h (getProperty h (VObject options) "expected") in
    let h := setProperty h options "expected" expected in
    let '(actual, h) :=
      shallowCopy h (getProperty h (VObject options) "actual") in
    setProperty h options "actual" actual
  else h.

Definition buildExpectationResult (h : heap) (options : loc)
  : Result :=
  jasmineBuildExpectationResult (captureFailure h options) options.

End Builder.

(** *** A concrete environment, for running the definitions *)

(** [v > 0] on numbers and booleans; [NaN] for [undefined], [0] for
    [null]. *)
Definition numberGreaterThanZero (v : value) : bool :=
  match v with
  | VNum n => 0 <? n
  | VBool b => b
  | _ => false
  end.

(** The DOM's [Node] constructor lives at 1.  At 10 the options of an
    expectation whose [expected] is the plain object [{x: 1}] at 11 and
    whose [actual] is a DOM node at 12. *)
Definition exampleNode : loc := 1%positive.

Definition exampleHeap (passed : bool) : heap :=
  {[ exampleNode := Object [] ∅;
     10%positive := Object [] {[ "passed" := VBool passed;
                                 "expected" := VObject 11%positive;
                                 "actual" := VObject 12%positive ]};
     11%positive := Object [] {[ "x" := VNum 1 ]};
     12%positive := Object [exampleNode] {[ "nodeType" := VNum 1 ]} ]}.

(** The options of a failed expectation whose [expected] and [actual] are
    one and the same plain object, at 11. *)
Definition aliasedHeap : heap :=
  {[ 10%positive := Object [] {[ "passed" := VBool false;
                                 "message" := VStr "Expected {x: 1} not to be {x: 1}.";
                                 "expected" := VObject 11%positive;
                                 "actual" := VObject 11%positive ]};
     11%positive := Object [] {[ "x" := VNum 1 ]} ]}.

(** A builder that reports the [expected] and [actual] it is handed. *)
Definition exampleBuilder (h : heap) (options : loc) : value * value :=
  (getProperty h (VObject options) "expected",
   getProperty h (VObject options) "actual").

End FailureCapture.

(** ** Concrete collaborators, for running the definitions

    A printer and a host equality in the style of the reporter's and the
    engine's: the equality compares structurally and, when handed
    [IterableEquality], consults it on objects that carry an iteration
    sequence, at every depth. *)

Fixpoint examplePrettyPrint (v : value) : string :=
  match v with
  | VUndefined => "undefined"
  | VNull => "null"
  | VBool true => "true"
  | VBool false => "false"
  | VNum n => string_of_Z n
  | VStr s => s
  | VFunction _ => "function"
  | VArray l => "[" ++ join ", " (map examplePrettyPrint l) ++ "]"
  | VObject _ (Some l) _ => "{" ++ join ", " (map examplePrettyPrint l) ++ "}"
  | VObject _ None _ => "object"
  end.

Fixpoint hostEquals (testers : list customTester) (a b : value) {struct a}
  : bool :=
  let elementwise :=
    fix elementwise (xs ys : list value) {struct xs} : bool :=
      match xs, ys with
      | [], [] => true
      | x :: xs', y :: ys' => hostEquals testers x y && elementwise xs' ys'
      | _, _ => false
      end in
  let propertywise :=
    fix propertywise (ps qs : list (string * value)) {struct ps} : bool :=
      match ps, qs with
      | [], [] => true
      | (k, x) :: ps', (k', y) :: qs' =>
          String.eqb k k' && hostEquals testers x y && propertywise ps' qs'
      | _, _ => false
      end in
  match a, b with
  | VUndefined, VUndefined => true
  | VNull, VNull => true
  | VBool x, VBool y => Bool.eqb x y
  | VNum x, VNum y => x =? y
  | VStr x, VStr y => String.eqb x y
  | VFunction f, VFunction g => Pos.eqb f g
  | VArray xs, VArray ys => elementwise xs ys
  | VObject c (Some xs) ps, VObject c' (Some ys) qs =>
      match testers with
      | IterableEquality :: _ => Pos.eqb c c' && elementwise xs ys
      | [] => propertywise ps qs
      end
  | VObject _ _ ps, VObject _ _ qs => propertywise ps qs
  | _, _ => false
  end.

Definition exampleEquals (a b : value)
    (customTesters : option (list customTester)) : bool :=
  hostEquals (default [] customTesters) a b.

(** A mock function with the given [mock.calls], and a spy whose
    [calls.all()] returns the given records. *)
Definition mockWith (calls : list (list value)) : target :=
  Target CallsFalsy (Some calls).

Definition spyWith (records : list spyCall) : target :=
  Target (CallsObject (Some records)) None.

(** * Properties *)

(** ** SequenceEquality *)

Section SequenceEqualityFacts.

Variable equals : value -> value -> option (list customTester) -> bool.

Lemma sequenceLike_inv (v : value) :
  sequenceLike v <-> exists c l p, v = VObject c (Some l) p.
Proof.
  split.
  - intros (Hnull & Hty & Harr & Hit).
    destruct v as [| | | | | |elems|c [l|] p]; simpl in *;
      try discriminate; try contradiction.
    eauto.
  - intros (c & l & p & ->). repeat split; discriminate.
Qed.

Lemma iterableEquality_guard (a b : value) :
  iterableEquality equals a b = None <-> ~ (sequenceLike a /\ sequenceLike b).
Proof.
  rewrite !sequenceLike_inv. split.
  - intros Hnone ((c & l & p & ->) & (c' & l' & p' & ->)).
    unfold iterableEquality in Hnone. simpl in Hnone.
    destruct (negb _); discriminate.
  - intros Hnot.
    destruct a as [| | | | | |elems|c [l|] p]; try reflexivity;
      destruct b as [| | | | | |elems'|c' [l'|] p']; try reflexivity.
    exfalso. apply Hnot. eauto 10.
Qed.





End SequenceEqualityFacts.

(** *** The tester at work, with the example host equality *)

(** The example host equality, handed the tester, answers on two operands
    what the tester decides on them: the reference the tester passes down
    is a reference to itself. *)
Lemma hostEquals_consults_tester (a b : value) (decision : bool) :
  iterableEquality exampleEquals a b = Some decision ->
  hostEquals [IterableEquality] a b = decision.
Proof.
  intros Hdecides.
  destruct a as [| | | | | |elems|c [xs|] ps]; try discriminate Hdecides;
    destruct b as [| | | | | |elems'|c' [ys|] qs]; try discriminate Hdecides.
  unfold iterableEquality in Hdecides. simpl in Hdecides. simpl.
  assert (Hloop : forall xs ys,
            iterableEquality_loop exampleEquals xs ys
            = (fix elementwise (xs ys : list value) {struct xs} : bool :=
                 match xs, ys with
                 | [], [] => true
                 | x :: xs', y :: ys' =>
                     hostEquals [IterableEquality] x y && elementwise xs' ys'
                 | _, _ => false
                 end) xs ys).
  { clear. induction xs as [|x xs IH]; intros [|y ys]; simpl; trivial.
    change (exampleEquals x y (Some [IterableEquality]))
      with (hostEquals [IterableEquality] x y).
    rewrite IH.
    destruct (hostEquals [IterableEquality] x y); reflexivity. }
  rewrite <- Hloop.
  destruct (decide (Some c = Some c')) as [Heq|Hne].
  - rewrite (bool_decide_eq_true_2 _ Heq) in Hdecides. simpl in Hdecides.
    injection Heq as ->. rewrite Pos.eqb_refl. simpl. congruence.
  - rewrite (bool_decide_eq_false_2 _ Hne) in Hdecides. simpl in Hdecides.
    assert (Hcc : Pos.eqb c c' = false) by (apply Pos.eqb_neq; congruence).
    rewrite Hcc. simpl. congruence.
Qed.

(** Two collections of one constructor with equal elements. *)
Example iterableEquality_equal_sets :
  iterableEquality exampleEquals
    (VObject 7 (Some [VNum 1; VNum 2]) []) (VObject 7 (Some [VNum 1; VNum 2]) [])
  = Some true.
Proof. reflexivity. Qed.

(** One sequence ends before the other, either way round. *)
Example iterableEquality_shorter :
  iterableEquality exampleEquals
    (VObject 7 (Some [VNum 1]) []) (VObject 7 (Some [VNum 1; VNum 2]) [])
  = Some false
  /\ iterableEquality exampleEquals
       (VObject 7 (Some [VNum 1; VNum 2]) []) (VObject 7 (Some [VNum 1]) [])
     = Some false.
Proof. split; reflexivity. Qed.

(** Equal elements under different constructors. *)
Example iterableEquality_other_constructor :
  iterableEquality exampleEquals
    (VObject 7 (Some [VNum 1]) []) (VObject 8 (Some [VNum 1]) [])
  = Some false.
Proof. reflexivity. Qed.

(** Nested collections are told apart through the tester passed down. *)
Example iterableEquality_nested :
  iterableEquality exampleEquals
    (VObject 7 (Some [VObject 7 (Some [VNum 1]) []]) [])
    (VObject 7 (Some [VObject 7 (Some [VNum 2]) []]) [])
  = Some false.
Proof. reflexivity. Qed.

(** Arrays, [null], strings and objects without an iterator are left to
    the engine. *)
Example iterableEquality_defers :
  iterableEquality exampleEquals (VArray [VNum 1]) (VArray [VNum 1]) = None
  /\ iterableEquality exampleEquals VNull VNull = None
  /\ iterableEquality exampleEquals (VStr "ab") (VStr "ab") = None
  /\ iterableEquality exampleEquals
       (VObject 7 None []) (VObject 7 (Some []) []) = None.
Proof. repeat split. Qed.

(** ** DiagnosticRenderer and CallMatchers *)

Lemma string_app_assoc (s t u : string) : (s ++ t) ++ u = s ++ t ++ u.
Proof.
  induction s as [|c s IH]; [reflexivity |].
  change (String c ((s ++ t) ++ u) = String c (s ++ t ++ u)).
  now rewrite IH.
Qed.

Lemma string_app_nil_r (s : string) : s ++ EmptyString = s.
Proof.
  induction s as [|c s IH]; [reflexivity |].
  change (String c (s ++ EmptyString) = String c s).
  now rewrite IH.
Qed.

Lemma contains_here (s after : string) : contains (s ++ after) s.
Proof. exists EmptyString, after. reflexivity. Qed.

Lemma contains_later (before t s : string) :
  contains t s -> contains (before ++ t) s.
Proof.
  intros (p & q & ->). exists (before ++ p), q.
  now rewrite string_app_assoc.
Qed.

Lemma contains_end (before s : string) : contains (before ++ s) s.
Proof. exists before, EmptyString. now rewrite string_app_nil_r. Qed.

(** What [Array_slice] keeps for a negative start: the last [n] elements. *)
Lemma Array_slice_last {A : Type} (n : Z) (l : list A) :
  0 < n ->
  Array_slice (- n) l = drop (length l - Z.to_nat n) l.
Proof.
  intros Hn. unfold Array_slice.
  destruct (Z.ltb_spec (- n) 0) as [_|]; [| lia].
  f_equal. lia.
Qed.

Section MatchersFacts.

Variable prettyPrint : value -> string.
Variable equals : value -> value -> option (list customTester) -> bool.

(** Mapping the printer over calls prints each, oldest first, and logs
    each. *)
Lemma mapM_prettyPrint (calls : list (list value)) (log : printLog) :
  mapM (fun call => reporter_prettyPrint prettyPrint (VArray call)) calls log
  = (map (fun call => prettyPrint (VArray call)) calls,
     (log ++ map VArray calls)%list).
Proof.
  revert log. induction calls as [|call calls IH]; intros log; simpl.
  - unfold ret. now rewrite app_nil_r.
  - unfold bind, reporter_prettyPrint at 1. rewrite IH. unfold ret.
    now rewrite <- app_assoc.
Qed.

(** The text of [getActualCalls], with the slice, the reversal and the
    tests on the counts spelled out. *)
Lemma getActualCalls_text_spelled (calls : list (list value)) (limit : Z)
    (log : printLog) :
  0 < limit ->
  let total := Z.of_nat (length calls) in
  let omitted := total - limit in
  fst (getActualCalls prettyPrint calls limit log)
  = nl ++ "Actual call" ++ (if decide (total = 1) then "" else "s")
       ++ ":" ++ nl
       ++ join ("," ++ nl)
            (map (fun call => prettyPrint (VArray call))
               (take (Z.to_nat limit) (rev calls)))
       ++ (if decide (limit < total)
           then nl ++ "and " ++ string_of_Z omitted ++ " other call"
                   ++ (if decide (omitted = 1) then "" else "s") ++ "."
           else "").
Proof.
  intros Hlimit total omitted. unfold getActualCalls, bind.
  rewrite mapM_prettyPrint. unfold ret; simpl fst.
  rewrite Array_slice_last by assumption.
  rewrite <- map_rev, <- firstn_rev.
  fold total. fold omitted.
  assert (Hhead : (total =? 1) = bool_decide (total = 1)).
  { destruct (Z.eqb_spec total 1) as [H|H];
      [now rewrite bool_decide_eq_true_2 | now rewrite bool_decide_eq_false_2]. }
  assert (Htail : (0 <? omitted) = bool_decide (limit < total)).
  { destruct (Z.ltb_spec 0 omitted) as [H|H];
      [rewrite bool_decide_eq_true_2 | rewrite bool_decide_eq_false_2];
      unfold omitted in *; (reflexivity || lia). }
  assert (Hplural : (omitted =? 1) = bool_decide (omitted = 1)).
  { destruct (Z.eqb_spec omitted 1) as [H|H];
      [now rewrite bool_decide_eq_true_2 | now rewrite bool_decide_eq_false_2]. }
  rewrite Hhead, Htail, Hplural.
  repeat case_decide; repeat case_bool_decide; try contradiction; reflexivity.
Qed.

(** C6.  For a positive limit, [getActualCalls] renders the header
    "Actual call" for exactly one recorded call and "Actual calls"
    otherwise, then the last [limit] calls, the most recent first, each
    pretty-printed and joined by a comma and a line feed; the count of the
    older calls left out, with its plural, follows exactly when there are
    more than [limit] calls. *)
Theorem getActualCalls_renders (calls : list (list value)) (limit : Z)
    (log : printLog) :
  0 < limit ->
  let total := Z.of_nat (length calls) in
  let omitted := total - limit in
  let header :=
    nl ++ "Actual call" ++ (if decide (total = 1) then "" else "s")
       ++ ":" ++ nl in
  let recent :=
    map (fun call => prettyPrint (VArray call))
      (take (Z.to_nat limit) (rev calls)) in
  let others :=
    if decide (limit < total)
    then nl ++ "and " ++ string_of_Z omitted ++ " other call"
            ++ (if decide (omitted = 1) then "" else "s") ++ "."
    else "" in
  fst (getActualCalls prettyPrint calls limit log)
  = header ++ join ("," ++ nl) recent ++ others
  /\ length recent = Nat.min (Z.to_nat limit) (length calls)
  /\ (others <> "" <-> limit < total).
Proof.
  intros Hlimit. cbv zeta. split; [| split].
  - rewrite getActualCalls_text_spelled by assumption.
    now rewrite !string_app_assoc.
  - now rewrite length_map, length_take, length_rev.
  - case_decide as Hmore.
    + split; [trivial | discriminate].
    + split; [congruence | contradiction].
Qed.

Lemma getActualCalls_log (calls : list (list value)) (limit : Z)
    (log : printLog) :
  snd (getActualCalls prettyPrint calls limit log)
  = (log ++ map VArray (Array_slice (- limit) calls))%list.
Proof.
  unfold getActualCalls, bind. rewrite mapM_prettyPrint. reflexivity.
Qed.

Lemma getActualCalls_text (calls : list (list value)) (limit : Z)
    (log log' : printLog) :
  fst (getActualCalls prettyPrint calls limit log)
  = fst (getActualCalls prettyPrint calls limit log').
Proof.
  unfold getActualCalls, bind. rewrite !mapM_prettyPrint. reflexivity.
Qed.

Lemma getActualCalls_run (calls : list (list value)) (limit : Z)
    (log : printLog) :
  getActualCalls prettyPrint calls limit log
  = (fst (getActualCalls prettyPrint calls limit []),
     (log ++ map VArray (Array_slice (- limit) calls))%list).
Proof.
  rewrite (surjective_pairing (getActualCalls _ _ _ _)).
  now rewrite getActualCalls_log, (getActualCalls_text _ _ log []).
Qed.

(** A trackable target passes each matcher's guard. *)
Lemma trackable_guard (actual : target) :
  trackable actual = true ->
  negb (isSpyLike actual) && negb (isMockLike actual) = false
  /\ negb (isMockLike actual) && negb (isSpyLike actual) = false.
Proof.
  unfold trackable.
  destruct (isSpyLike actual), (isMockLike actual); simpl; auto; discriminate.
Qed.

(** C4.  On a trackable target [toBeCalledWith] returns without printing;
    it passes exactly when some recorded call's argument list equals the
    expected one for the host equality; and the message of a failure is
    "Was not called with the expected values.", the pretty-printed expected
    arguments and the calls rendered by [getActualCalls] with limit 3. *)
Theorem toBeCalledWith_passes (actual : target) (expected : list value)
    (log : printLog) :
  trackable actual = true ->
  let calls := recordedCalls (isSpyLike actual) actual in
  exists result,
    toBeCalledWith prettyPrint equals actual expected log = (Return result, log)
    /\ (pass result = true
        <-> exists call,
              call ∈ calls
              /\ equals (VArray call) (VArray expected) None = true)
    /\ (pass result = false ->
        forall log',
          let text := fst (readMessage result log') in
          let rendered :=
            fst (getActualCalls prettyPrint calls CALL_PRINT_LIMIT []) in
          text = "Was not called with the expected values." ++ nl
                   ++ "Expected call:" ++ nl
                   ++ prettyPrint (VArray expected) ++ rendered
          /\ CALL_PRINT_LIMIT = 3
          /\ contains text "Was not called with the expected values."
          /\ contains text (prettyPrint (VArray expected))
          /\ contains text rendered).
Proof.
  intros [_ Hguard]%trackable_guard calls.
  unfold toBeCalledWith. rewrite Hguard. fold calls.
  set (found := Array_some _ calls).
  assert (Hfound : found = true
            <-> exists call, call ∈ calls
                  /\ equals (VArray call) (VArray expected) None = true).
  { unfold found, Array_some. rewrite existsb_exists.
    split; intros (call & Hin & Heq); exists call; split; trivial;
      now apply list_elem_of_In. }
  destruct found eqn:Hf; simpl negb; cbv iota.
  - eexists. split; [reflexivity |]. split; [exact Hfound |].
    simpl. discriminate.
  - eexists. split; [reflexivity |]. split; [exact Hfound |].
    intros _ log'.
    match goal with |- ?text = ?rhs /\ _ => assert (Htext : text = rhs) end.
    { unfold readMessage, bind, reporter_prettyPrint; simpl.
      rewrite getActualCalls_run. reflexivity. }
    split; [exact Htext |]. split; [reflexivity |].
    rewrite Htext. repeat split.
    + apply contains_here.
    + do 4 apply contains_later. apply contains_here.
    + do 4 apply contains_later. apply contains_end.
Qed.

(** With limit 1 and at least one call, [getActualCalls] prints and renders
    the last call alone. *)
Lemma getActualCalls_last (calls : list (list value)) (lastArgs : list value)
    (log : printLog) :
  last calls = Some lastArgs ->
  getActualCalls prettyPrint calls LAST_CALL_PRINT_LIMIT log
  = (nl ++ "Actual call"
        ++ (if decide (Z.of_nat (length calls) = 1) then "" else "s")
        ++ ":" ++ nl ++ prettyPrint (VArray lastArgs)
        ++ (if decide (1 < Z.of_nat (length calls))
            then nl ++ "and " ++ string_of_Z (Z.of_nat (length calls) - 1)
                    ++ " other call"
                    ++ (if decide (Z.of_nat (length calls) - 1 = 1)
                        then "" else "s") ++ "."
            else ""),
     (log ++ [VArray lastArgs])%list).
Proof.
  intros [older ->]%last_Some.
  rewrite (surjective_pairing (getActualCalls _ _ _ _)).
  rewrite getActualCalls_log, getActualCalls_text_spelled by reflexivity.
  unfold LAST_CALL_PRINT_LIMIT.
  rewrite Array_slice_last by lia.
  rewrite rev_app_distr. simpl rev. simpl take.
  rewrite length_app. simpl length.
  replace (length older + 1 - Z.to_nat 1)%nat with (length older) by lia.
  rewrite drop_app_length. reflexivity.
Qed.

(** C5.  On a trackable target with at least one recorded call,
    [lastCalledWith] returns without printing; it passes exactly when the
    last recorded call's argument list equals the expected one for the host
    equality; and reading the message of a failure prints, besides the
    expected arguments, the last recorded call and no other: the text is
    "Wasn't last called with the expected values.", the expected arguments
    and [getActualCalls] with limit 1, which renders that one call. *)
Theorem lastCalledWith_passes (actual : target) (expected : list value)
    (log : printLog) :
  trackable actual = true ->
  recordedCalls (isSpyLike actual) actual <> [] ->
  let calls := recordedCalls (isSpyLike actual) actual in
  exists result lastArgs,
    last calls = Some lastArgs
    /\ lastCalledWith prettyPrint equals actual expected log
       = (Return result, log)
    /\ (pass result = true
        <-> equals (VArray lastArgs) (VArray expected) None = true)
    /\ (pass result = false ->
        forall log',
          let rendered :=
            fst (getActualCalls prettyPrint calls LAST_CALL_PRINT_LIMIT []) in
          readMessage result log'
          = ("Wasn't last called with the expected values." ++ nl
               ++ "Expected call:" ++ nl
               ++ prettyPrint (VArray expected) ++ rendered,
             (log' ++ [VArray expected; VArray lastArgs])%list)
          /\ LAST_CALL_PRINT_LIMIT = 1
          /\ rendered
             = nl ++ "Actual call"
                  ++ (if decide (Z.of_nat (length calls) = 1) then "" else "s")
                  ++ ":" ++ nl ++ prettyPrint (VArray lastArgs)
                  ++ (if decide (1 < Z.of_nat (length calls))
                      then nl ++ "and "
                              ++ string_of_Z (Z.of_nat (length calls) - 1)
                              ++ " other call"
                              ++ (if decide (Z.of_nat (length calls) - 1 = 1)
                                  then "" else "s") ++ "."
                      else "")).
Proof.
  intros [Hguard _]%trackable_guard Hcalls calls.
  destruct (proj2 (last_is_Some calls) Hcalls) as [lastArgs Hlast].
  assert (HlastCall : lastCall calls = VArray lastArgs).
  { unfold lastCall. now rewrite Hlast. }
  unfold lastCalledWith. rewrite Hguard. fold calls. rewrite HlastCall.
  destruct (equals (VArray lastArgs) (VArray expected) None) eqn:Heq;
    simpl negb; cbv iota.
  - eexists _, lastArgs. split; [exact Hlast |]. split; [reflexivity |].
    simpl. split; [now rewrite Heq | discriminate].
  - eexists _, lastArgs. split; [exact Hlast |]. split; [reflexivity |].
    simpl. split; [now rewrite Heq |].
    intros _ log'.
    rewrite (getActualCalls_last _ _ _ Hlast). simpl fst.
    split; [| split; reflexivity].
    unfold readMessage, bind, reporter_prettyPrint; simpl.
    rewrite (getActualCalls_last _ _ _ Hlast). unfold ret.
    now rewrite <- app_assoc.
Qed.

End MatchersFacts.

(** ** The matchers' guards, messages and laziness *)

Lemma toBeCalled_rejects_truthy (actual : target) (arguments : list value)
    (log : printLog) :
  truthy (hd VUndefined arguments) = true ->
  toBeCalled actual arguments log
  = (Throw "toBeCalled() does not accept parameters, use toBeCalledWith instead.",
     log).
Proof. intros Htruthy. unfold toBeCalled. now rewrite Htruthy. Qed.

Lemma toBeCalled_without_argument (actual : target) (log : printLog) :
  trackable actual = true ->
  let calls := recordedCalls (isSpyLike actual) actual in
  toBeCalled actual [] log
  = (Return (MatchResult (bool_decide (calls <> []))
       (MessageValue (if bool_decide (calls <> [])
                      then "Expected not to be called"
                      else "Expected to be called at least once"))),
     log).
Proof.
  intros [Hguard _]%trackable_guard calls.
  unfold toBeCalled. simpl hd. simpl truthy. cbv iota.
  rewrite Hguard. fold calls. clearbody calls.
  destruct calls; reflexivity.
Qed.

(** C7.  [toBeCalled] does not reject every extra argument: its guard tests
    the truthiness of the argument, so on a mock function called once
    [toBeCalled(0)] throws no usage error and returns a passing result, as
    if no argument had been supplied. *)
Theorem toBeCalled_accepts_falsy_argument :
  toBeCalled (mockWith [[VNum 1]]) [VNum 0] []
  = (Return (MatchResult true (MessageValue "Expected not to be called")), [])
  /\ toBeCalled (mockWith [[VNum 1]]) [VNum 0] []
     = toBeCalled (mockWith [[VNum 1]]) [] [].
Proof. split; reflexivity. Qed.

Example toBeCalled_accepts_null_false_empty :
  toBeCalled (mockWith []) [VNull] [] = toBeCalled (mockWith []) [] []
  /\ toBeCalled (mockWith []) [VBool false] [] = toBeCalled (mockWith []) [] []
  /\ toBeCalled (mockWith []) [VStr EmptyString] []
     = toBeCalled (mockWith []) [] [].
Proof. repeat split. Qed.

(** C8 does not hold of [toBeCalled]: the [message] of its result is a data
    property holding a string, not an accessor. *)
Lemma toBeCalled_message_is_no_accessor :
  exists result,
    toBeCalled (mockWith []) [] [] = (Return result, [])
    /\ message result = MessageValue "Expected to be called at least once"
    /\ isAccessor (message result) = false.
Proof. eexists. split; [reflexivity |]. split; reflexivity. Qed.

Section CompareFacts.

Variable prettyPrint : value -> string.
Variable equals : value -> value -> option (list customTester) -> bool.

(** C8 (amended).  None of the three [compare] functions invokes the
    pretty-printer.  The [message] of every result of [lastCalledWith] and
    of [toBeCalledWith] is an accessor, and each read of it invokes the
    pretty-printer, first on the expected arguments.  The [message] of a
    result of [toBeCalled] is one of two constant strings, stored in the
    result. *)
Theorem compare_never_prints (actual : target) (arguments : list value)
    (log : printLog) :
  (snd (toBeCalled actual arguments log) = log
   /\ snd (lastCalledWith prettyPrint equals actual arguments log) = log
   /\ snd (toBeCalledWith prettyPrint equals actual arguments log) = log)
  /\ (forall result,
        fst (lastCalledWith prettyPrint equals actual arguments log)
        = Return result
        \/ fst (toBeCalledWith prettyPrint equals actual arguments log)
           = Return result ->
        isAccessor (message result) = true
        /\ forall log', exists text printedAfter,
             readMessage result log'
             = (text, (log' ++ VArray arguments :: printedAfter)%list)
             /\ contains text (prettyPrint (VArray arguments)))
  /\ (forall result,
        fst (toBeCalled actual arguments log) = Return result ->
        message result = MessageValue "Expected not to be called"
        \/ message result = MessageValue "Expected to be called at least once").
Proof.
  split; [| split].
  - unfold toBeCalled, lastCalledWith, toBeCalledWith.
    repeat split; repeat (destruct (_ : bool); simpl; try reflexivity).
  - intros result [Hres|Hres].
    + unfold lastCalledWith in Hres.
      destruct (negb (isSpyLike actual) && negb (isMockLike actual));
        [discriminate |].
      destruct (negb _) in Hres; simpl in Hres;
        injection Hres as <-; (split; [reflexivity |]); intros log';
        unfold readMessage, bind, reporter_prettyPrint, ret; simpl.
      * rewrite getActualCalls_run. do 2 eexists.
        split; [now rewrite <- app_assoc |].
        do 4 apply contains_later. apply contains_here.
      * exists (("Shouldn't have been last called with" ++ nl)
                ++ prettyPrint (VArray arguments)), [].
        split; [now rewrite string_app_assoc |]. apply contains_end.
    + unfold toBeCalledWith in Hres.
      destruct (negb (isMockLike actual) && negb (isSpyLike actual));
        [discriminate |].
      destruct (negb _) in Hres; simpl in Hres;
        injection Hres as <-; (split; [reflexivity |]); intros log';
        unfold readMessage, bind, reporter_prettyPrint, ret; simpl.
      * rewrite getActualCalls_run. do 2 eexists.
        split; [now rewrite <- app_assoc |].
        do 4 apply contains_later. apply contains_here.
      * exists (("Shouldn't have been called with" ++ nl)
                ++ prettyPrint (VArray arguments)), [].
        split; [now rewrite string_app_assoc |]. apply contains_end.
  - intros result Hres. unfold toBeCalled in Hres.
    destruct (truthy _); [discriminate |].
    destruct (negb (isSpyLike actual) && negb (isMockLike actual));
      [discriminate |].
    destruct (negb _) in Hres; simpl in Hres; injection Hres as <-; auto.
Qed.

(** C9.  On a trackable target with no recorded call neither matcher
    throws.  [toBeCalledWith] returns a failing result.  [lastCalledWith]
    hands [undefined], the out-of-range element, to the host equality, and
    returns a failing result for every expected list, the host equality
    telling [undefined] from an array. *)
Theorem no_recorded_call_no_error (actual : target) (expected : list value)
    (log : printLog) :
  (forall anyArgs, equals VUndefined (VArray anyArgs) None = false) ->
  trackable actual = true ->
  recordedCalls (isSpyLike actual) actual = [] ->
  (exists result,
     toBeCalledWith prettyPrint equals actual expected log = (Return result, log)
     /\ pass result = false)
  /\ (exists result,
       lastCalledWith prettyPrint equals actual expected log
       = (Return result, log)
       /\ pass result = equals VUndefined (VArray expected) None
       /\ pass result = false).
Proof.
  intros Hundefined [Hlast Hwith]%trackable_guard Hnone. split.
  - unfold toBeCalledWith. rewrite Hwith, Hnone. simpl.
    eexists. split; reflexivity.
  - unfold lastCalledWith. rewrite Hlast, Hnone. simpl lastCall.
    rewrite Hundefined. simpl.
    eexists. split; [reflexivity |].
    split; [symmetry; apply Hundefined | reflexivity].
Qed.

End CompareFacts.

(** *** The matchers at work *)

(** Four calls and limit 3: the three most recent, newest first, and the
    count of the one left out. *)
Lemma getActualCalls_renders_witness :
  fst (getActualCalls examplePrettyPrint
         [[VNum 1]; [VNum 2]; [VNum 3]; [VNum 4]] CALL_PRINT_LIMIT [])
  = nl ++ "Actual calls:" ++ nl ++ "[4]," ++ nl ++ "[3]," ++ nl ++ "[2]"
       ++ nl ++ "and 1 other call.".
Proof.
  destruct (getActualCalls_renders examplePrettyPrint
              [[VNum 1]; [VNum 2]; [VNum 3]; [VNum 4]] CALL_PRINT_LIMIT [])
    as (Htext & _ & _).
  - unfold CALL_PRINT_LIMIT. lia.
  - rewrite Htext. reflexivity.
Defined.

Example getActualCalls_three_calls :
  fst (getActualCalls examplePrettyPrint
         [[VNum 1]; [VNum 2]; [VNum 3]] CALL_PRINT_LIMIT [])
  = nl ++ "Actual calls:" ++ nl ++ "[3]," ++ nl ++ "[2]," ++ nl ++ "[1]".
Proof. reflexivity. Qed.

Example getActualCalls_one_call :
  fst (getActualCalls examplePrettyPrint [[VNum 1]] CALL_PRINT_LIMIT [])
  = nl ++ "Actual call:" ++ nl ++ "[1]".
Proof. reflexivity. Qed.

(** [toBeCalledWith(1, 2)] on calls [[1, 2], [3, 4]] passes. *)
Lemma toBeCalledWith_passes_witness :
  exists result,
    toBeCalledWith examplePrettyPrint exampleEquals
      (mockWith [[VNum 1; VNum 2]; [VNum 3; VNum 4]]) [VNum 1; VNum 2] []
    = (Return result, [])
    /\ pass result = true.
Proof.
  destruct (toBeCalledWith_passes examplePrettyPrint exampleEquals
              (mockWith [[VNum 1; VNum 2]; [VNum 3; VNum 4]])
              [VNum 1; VNum 2] [])
    as (result & Hrun & Hpass & _).
  - reflexivity.
  - exists result. split; [exact Hrun |].
    apply Hpass. exists [VNum 1; VNum 2]. split; [| reflexivity].
    apply list_elem_of_In. simpl. auto.
Defined.

Example toBeCalledWith_fails :
  exists result,
    toBeCalledWith examplePrettyPrint exampleEquals
      (mockWith [[VNum 3; VNum 4]]) [VNum 1; VNum 2] []
    = (Return result, [])
    /\ pass result = false
    /\ readMessage result []
       = ("Was not called with the expected values." ++ nl
            ++ "Expected call:" ++ nl ++ "[1, 2]" ++ nl
            ++ "Actual call:" ++ nl ++ "[3, 4]",
          [VArray [VNum 1; VNum 2]; VArray [VNum 3; VNum 4]]).
Proof. eexists. repeat split. Qed.

(** [lastCalledWith(2)] on calls [[1], [2], [3]] fails, and its message
    shows the call [[3]] alone. *)
Lemma lastCalledWith_passes_witness :
  exists result,
    lastCalledWith examplePrettyPrint exampleEquals
      (mockWith [[VNum 1]; [VNum 2]; [VNum 3]]) [VNum 2] []
    = (Return result, [])
    /\ pass result = false
    /\ readMessage result []
       = ("Wasn't last called with the expected values." ++ nl
            ++ "Expected call:" ++ nl ++ "[2]" ++ nl
            ++ "Actual calls:" ++ nl ++ "[3]" ++ nl
            ++ "and 2 other calls.",
          [VArray [VNum 2]; VArray [VNum 3]]).
Proof.
  destruct (lastCalledWith_passes examplePrettyPrint exampleEquals
              (mockWith [[VNum 1]; [VNum 2]; [VNum 3]]) [VNum 2] [])
    as (result & lastArgs & Hlast & Hrun & Hpass & Hmessage).
  - reflexivity.
  - discriminate.
  - assert (HlastArgs : lastArgs = [VNum 3])
      by (vm_compute in Hlast; congruence).
    subst lastArgs.
    assert (Hfails : pass result = false).
    { destruct (pass result); [| reflexivity].
      destruct Hpass as [Hpass _]. discriminate (Hpass eq_refl). }
    exists result. split; [exact Hrun |]. split; [exact Hfails |].
    destruct (Hmessage Hfails []) as (Hread & _ & _).
    rewrite Hread. reflexivity.
Defined.

Example lastCalledWith_last_matches :
  exists result,
    lastCalledWith examplePrettyPrint exampleEquals
      (mockWith [[VNum 1]; [VNum 2]; [VNum 3]]) [VNum 3] []
    = (Return result, [])
    /\ pass result = true.
Proof. eexists. split; reflexivity. Qed.

(** A spy's records are read through [calls.all()], in call order. *)
Example recordedCalls_spy :
  recordedCalls (isSpyLike (spyWith [SpyCall [VNum 1; VNum 2]; SpyCall [VNum 3]]))
    (spyWith [SpyCall [VNum 1; VNum 2]; SpyCall [VNum 3]])
  = [[VNum 1; VNum 2]; [VNum 3]].
Proof. reflexivity. Qed.

(** Never called: neither matcher throws, both fail. *)
Lemma no_recorded_call_no_error_witness :
  (exists result,
     toBeCalledWith examplePrettyPrint exampleEquals (mockWith []) [VNum 1] []
     = (Return result, [])
     /\ pass result = false)
  /\ (exists result,
       lastCalledWith examplePrettyPrint exampleEquals (mockWith []) [VNum 1] []
       = (Return result, [])
       /\ pass result = false).
Proof.
  destruct (no_recorded_call_no_error examplePrettyPrint exampleEquals
              (mockWith []) [VNum 1] [])
    as [(r1 & Hrun1 & Hfail1) (r2 & Hrun2 & _ & Hfail2)].
  - intros anyArgs. reflexivity.
  - reflexivity.
  - reflexivity.
  - split; [exists r1 | exists r2]; split; assumption.
Defined.

Example toBeCalled_never_called :
  toBeCalled (mockWith []) [] []
  = (Return (MatchResult false
       (MessageValue "Expected to be called at least once")), []).
Proof. reflexivity. Qed.

Example toBeCalled_rejects_argument :
  toBeCalled (mockWith [[VNum 1]]) [VNum 5] []
  = (Throw "toBeCalled() does not accept parameters, use toBeCalledWith instead.",
     []).
Proof. reflexivity. Qed.

(** ** ResultAggregator *)

Section ResultAggregatorFacts.

Variable SnapshotState : Type.
Variable snapshot_hasUncheckedKeys : SnapshotState -> bool.
Variable snapshot_removeUncheckedKeys : SnapshotState -> SnapshotState.
Variable snapshot_save : bool -> SnapshotState -> bool * SnapshotState.
Variables state_added state_matched state_unmatched state_updated
  : SnapshotState -> Z.
Variable Collected : Type.

(** C2.  The callback asks the snapshot for unchecked keys first, on the
    state as it finds it; removes the unchecked keys exactly when
    [updateSnapshot] is set; then saves, once.  The result reports unchecked
    keys exactly when the save did not delete the file and the first answer
    was yes, and its [snapshot] record holds the deletion flag of the save
    and the four counters. *)
Theorem jasmine2_results_aggregates (updateSnapshot : bool)
    (results : testResult Collected) (snapshotState : SnapshotState)
    (trace : list snapshotCall) :
  let hadUncheckedKeys := snapshot_hasUncheckedKeys snapshotState in
  let beforeSave :=
    if updateSnapshot then snapshot_removeUncheckedKeys snapshotState
    else snapshotState in
  let deleted := fst (snapshot_save updateSnapshot beforeSave) in
  let afterSave := snd (snapshot_save updateSnapshot beforeSave) in
  exists results' made,
    jasmine2_results snapshot_hasUncheckedKeys snapshot_removeUncheckedKeys
      snapshot_save state_added state_matched state_unmatched state_updated
      updateSnapshot results snapshotState trace
    = (results', afterSave, (trace ++ made)%list)
    /\ made = (HasUncheckedKeys
               :: (if updateSnapshot then [RemoveUncheckedKeys] else [])
               ++ [Save updateSnapshot])%list
    /\ (RemoveUncheckedKeys ∈ made <-> updateSnapshot = true)
    /\ length (List.filter isSave made) = 1%nat
    /\ hasUncheckedKeys results' = negb deleted && hadUncheckedKeys
    /\ (deleted = true -> hasUncheckedKeys results' = false)
    /\ snapshot results'
       = SnapshotSummary deleted (state_added afterSave)
           (state_matched afterSave) (state_unmatched afterSave)
           (state_updated afterSave)
    /\ collected results' = collected results.
Proof.
  cbv zeta. unfold jasmine2_results.
  destruct updateSnapshot; simpl;
    destruct (snapshot_save _ _) as [deleted afterSave]; simpl;
    (eexists _, _; split;
     [rewrite <- !app_assoc; reflexivity |]);
    (split; [reflexivity |]); simpl.
  - repeat split; try reflexivity.
    + intros _. apply list_elem_of_In. simpl. auto.
    + intros ->. reflexivity.
  - repeat split; try reflexivity.
    + intros Hin%list_elem_of_In. simpl in Hin.
      destruct Hin as [|[|[]]]; discriminate.
    + discriminate.
    + intros ->. reflexivity.
Qed.

End ResultAggregatorFacts.

(** ** FailureCapture *)

Module FailureCaptureFacts.

Import FailureCapture.

Lemma lookup_setProperty_ne (h : heap) (l l' : loc) (key : string) (v : value) :
  l <> l' -> setProperty h l key v !! l' = h !! l'.
Proof. intros Hne. unfold setProperty. now apply lookup_alter_ne. Qed.

Lemma dom_setProperty (h : heap) (l : loc) (key : string) (v : value) :
  dom (setProperty h l key v) = dom h.
Proof. unfold setProperty. apply dom_alter_L. Qed.

Lemma setProperty_is_Some (h : heap) (l l' : loc) (key : string) (v : value) :
  is_Some (setProperty h l key v !! l') <-> is_Some (h !! l').
Proof. now rewrite <- !elem_of_dom, dom_setProperty. Qed.

Lemma getProperty_setProperty_same (h : heap) (l : loc) (key : string)
    (v : value) :
  is_Some (h !! l) ->
  getProperty (setProperty h l key v) (VObject l) key = v.
Proof.
  intros [o Ho]. unfold getProperty, setProperty.
  rewrite lookup_alter_eq, Ho. simpl. now rewrite lookup_insert_eq.
Qed.

Lemma getProperty_setProperty_key (h : heap) (l : loc) (key key' : string)
    (v x : value) :
  key <> key' ->
  getProperty (setProperty h l key v) x key' = getProperty h x key'.
Proof.
  intros Hkey. unfold getProperty, setProperty.
  destruct x as [| | | | |l'|l']; try reflexivity;
    (destruct (decide (l = l')) as [->|Hne];
     [rewrite lookup_alter_eq; destruct (h !! l') as [o|]; simpl;
      [now rewrite lookup_insert_ne | reflexivity]
     | now rewrite lookup_alter_ne]).
Qed.

Lemma getProperty_setProperty_loc (h : heap) (l l' : loc) (key key' : string)
    (v : value) :
  l <> l' ->
  getProperty (setProperty h l key v) (VObject l') key'
  = getProperty h (VObject l') key'.
Proof.
  intros Hne. unfold getProperty. now rewrite lookup_setProperty_ne.
Qed.

Lemma isInstanceOf_setProperty (h : heap) (l : loc) (key : string)
    (v x : value) (C : loc) :
  isInstanceOf (setProperty h l key v) x C = isInstanceOf h x C.
Proof.
  unfold isInstanceOf, setProperty.
  destruct x as [| | | | |l'|l']; try reflexivity;
    (destruct (decide (l = l')) as [->|Hne];
     [rewrite lookup_alter_eq; now destruct (h !! l')
     | now rewrite lookup_alter_ne]).
Qed.

Lemma allocated_setProperty (h : heap) (l : loc) (key : string) (v x : value) :
  allocated h x -> allocated (setProperty h l key v) x.
Proof.
  destruct x; simpl; trivial; now rewrite setProperty_is_Some.
Qed.

(** Allocation leaves what was allocated as it was. *)
Lemma allocated_weaken (h h1 : heap) (x : value) :
  h ⊆ h1 -> allocated h x -> allocated h1 x.
Proof.
  intros Hsub. destruct x; simpl; trivial;
    intros Hx; eapply lookup_weaken_is_Some; eassumption.
Qed.

Lemma getProperty_weaken (h h1 : heap) (x : value) (key : string) :
  h ⊆ h1 -> allocated h x -> getProperty h1 x key = getProperty h x key.
Proof.
  intros Hsub. unfold getProperty.
  destruct x; simpl; trivial; intros [o Ho];
    now rewrite (lookup_weaken _ _ _ _ Ho Hsub), Ho.
Qed.

Lemma isInstanceOf_weaken (h h1 : heap) (x : value) (C : loc) :
  h ⊆ h1 -> allocated h x -> isInstanceOf h1 x C = isInstanceOf h x C.
Proof.
  intros Hsub. unfold isInstanceOf.
  destruct x; simpl; trivial; intros [o Ho];
    now rewrite (lookup_weaken _ _ _ _ Ho Hsub), Ho.
Qed.

Lemma fresh_not_allocated (h : heap) : h !! fresh (dom h) = None.
Proof. apply not_elem_of_dom, is_fresh. Qed.

Section BuilderFacts.

Variable globalNode : option loc.
Variable greaterThanZero : value -> bool.
Variable Result : Type.
Variable jasmineBuildExpectationResult : heap -> loc -> Result.

Lemma isHostNode_weaken (h h1 : heap) (x : value) :
  h ⊆ h1 -> allocated h x ->
  isHostNode globalNode greaterThanZero h1 x
  = isHostNode globalNode greaterThanZero h x.
Proof.
  intros Hsub Hx. unfold isHostNode. destruct globalNode as [Node|]; trivial.
  now rewrite (isInstanceOf_weaken h h1), (getProperty_weaken h h1).
Qed.

Lemma isHostNode_setProperty (h : heap) (l : loc) (key : string)
    (v x : value) :
  key <> "nodeType" ->
  isHostNode globalNode greaterThanZero (setProperty h l key v) x
  = isHostNode globalNode greaterThanZero h x.
Proof.
  intros Hkey. unfold isHostNode. destruct globalNode as [Node|]; trivial.
  now rewrite isInstanceOf_setProperty, getProperty_setProperty_key.
Qed.

(** [shallowCopy] returns its argument, in the heap as it was, when the
    argument is no object, is [null] or is a host node. *)
Lemma shallowCopy_kept (h : heap) (v : value) :
  typeof v <> TObject \/ v = VNull
  \/ isHostNode globalNode greaterThanZero h v = true ->
  shallowCopy globalNode greaterThanZero h v = (v, h).
Proof.
  intros Hkept. unfold shallowCopy.
  destruct Hkept as [Hty|[->|Hnode]].
  - now rewrite (bool_decide_eq_false_2 _ Hty).
  - reflexivity.
  - rewrite Hnode. now rewrite !orb_true_r.
Qed.

(** Otherwise it allocates a new object that holds what the original
    holds. *)
Lemma shallowCopy_copied (h : heap) (v : value) :
  allocated h v ->
  typeof v = TObject -> v <> VNull ->
  isHostNode globalNode greaterThanZero h v = false ->
  exists l o,
    v = VObject l /\ h !! l = Some o
    /\ shallowCopy globalNode greaterThanZero h v
       = (VObject (fresh (dom h)), <[fresh (dom h) := o]> h).
Proof.
  intros Halloc Hty Hnull Hnode. unfold shallowCopy.
  rewrite (bool_decide_eq_true_2 _ Hty), (bool_decide_eq_false_2 _ Hnull), Hnode.
  simpl. destruct v as [| | | | |l|l]; try discriminate; try contradiction.
  destruct Halloc as [o Ho]. exists l, o. simpl. now rewrite Ho.
Qed.

Lemma shallowCopy_extends (h : heap) (v : value) :
  h ⊆ snd (shallowCopy globalNode greaterThanZero h v).
Proof.
  unfold shallowCopy. destruct (_ || _); [reflexivity |].
  unfold clone. destruct v; try reflexivity.
  destruct (h !! l) eqn:Hl; [| reflexivity].
  simpl. apply insert_subseteq, fresh_not_allocated.
Qed.

(** A copy reads, field by field, as the object it was taken from, whatever
    is written to that object afterwards. *)
Lemma copy_independent (h h' : heap) (l l' : loc) :
  l' <> l -> h' !! l' = h !! l ->
  forall key w key',
    getProperty (setProperty h' l key w) (VObject l') key'
    = getProperty h (VObject l) key'.
Proof.
  intros Hne Hcopy key w key'.
  rewrite getProperty_setProperty_loc by congruence.
  unfold getProperty. now rewrite Hcopy.
Qed.

(** The heap the engine's builder receives for a failure, step by step. *)
Lemma captureFailure_failed (h : heap) (options : loc) :
  truthy (getProperty h (VObject options) "passed") = false ->
  is_Some (h !! options) ->
  let copied1 :=
    shallowCopy globalNode greaterThanZero h
      (getProperty h (VObject options) "expected") in
  let h2 := setProperty (snd copied1) options "expected" (fst copied1) in
  let copied2 :=
    shallowCopy globalNode greaterThanZero h2
      (getProperty h (VObject options) "actual") in
  captureFailure globalNode greaterThanZero h options
  = setProperty (snd copied2) options "actual" (fst copied2)
  /\ h ⊆ snd copied1
  /\ h2 ⊆ snd copied2
  /\ is_Some (h2 !! options)
  /\ getProperty (captureFailure globalNode greaterThanZero h options)
       (VObject options) "expected" = fst copied1
  /\ getProperty (captureFailure globalNode greaterThanZero h options)
       (VObject options) "actual" = fst copied2.
Proof.
  intros Hfailed Hoptions copied1 h2 copied2.
  assert (Hext1 : h ⊆ snd copied1) by apply shallowCopy_extends.
  assert (Hext2 : h2 ⊆ snd copied2) by apply shallowCopy_extends.
  assert (Hoptions1 : is_Some (snd copied1 !! options))
    by (eapply lookup_weaken_is_Some; eassumption).
  assert (Hoptions2 : is_Some (h2 !! options))
    by now apply setProperty_is_Some.
  assert (Hoptions3 : is_Some (snd copied2 !! options))
    by (eapply lookup_weaken_is_Some; eassumption).
  assert (Hactual : getProperty h2 (VObject options) "actual"
                    = getProperty h (VObject options) "actual").
  { unfold h2. rewrite getProperty_setProperty_key by discriminate.
    now apply getProperty_weaken. }
  assert (Hrun : captureFailure globalNode greaterThanZero h options
                 = setProperty (snd copied2) options "actual" (fst copied2)).
  { unfold captureFailure. rewrite Hfailed. simpl negb. cbv iota.
    fold copied1. destruct copied1 as [expected h1] eqn:Hc1. simpl in *.
    fold h2. rewrite Hactual. fold copied2.
    now destruct copied2. }
  repeat split; trivial.
  - rewrite Hrun, getProperty_setProperty_key by discriminate.
    rewrite (getProperty_weaken h2) by trivial.
    unfold h2. now apply getProperty_setProperty_same.
  - rewrite Hrun. now apply getProperty_setProperty_same.
Qed.

(** C3.  For a failure (a falsy [passed]) the patched builder hands the
    engine's builder the options with [expected] and [actual] replaced.  A
    value that is no object for [typeof] (a primitive, and a function too),
    [null], or an instance of the environment's [Node] with a positive
    [nodeType] is handed on as it is.  Any other object is replaced by a
    newly allocated object holding the fields the original holds at that
    time, and whatever is later written to the original, the recorded copy
    reads as the original did. *)
Theorem captureFailure_copies (h : heap) (options : loc) (field : string) :
  is_Some (h !! options) ->
  truthy (getProperty h (VObject options) "passed") = false ->
  allocated h (getProperty h (VObject options) "expected") ->
  allocated h (getProperty h (VObject options) "actual") ->
  field = "expected" \/ field = "actual" ->
  let original := getProperty h (VObject options) field in
  let h' := captureFailure globalNode greaterThanZero h options in
  let recorded := getProperty h' (VObject options) field in
  buildExpectationResult globalNode greaterThanZero Result
    jasmineBuildExpectationResult h options
  = jasmineBuildExpectationResult h' options
  /\ (typeof original <> TObject \/ original = VNull
      \/ isHostNode globalNode greaterThanZero h original = true ->
      recorded = original)
  /\ (typeof original = TObject -> original <> VNull ->
      isHostNode globalNode greaterThanZero h original = false ->
      exists l l',
        original = VObject l /\ recorded = VObject l'
        /\ (l' ∉ dom h) /\ l' <> l
        /\ (l <> options ->
            h' !! l' = h !! l
            /\ forall key w key',
                 getProperty (setProperty h' l key w) (VObject l') key'
                 = getProperty h (VObject l) key')).
Proof.
  intros Hoptions Hfailed Hexpected Hactual Hfield. cbv zeta.
  split; [reflexivity |].
  pose proof (captureFailure_failed h options Hfailed Hoptions) as Hsteps.
  cbv zeta in Hsteps.
  destruct Hsteps as (Hrun & Hext1 & Hext2 & Hoptions2 & Hrec1 & Hrec2).
  assert (Hfresh_options : forall g : heap,
            is_Some (g !! options) -> fresh (dom g) <> options).
  { intros g Hg Heq. rewrite <- Heq in Hg.
    rewrite fresh_not_allocated in Hg. now destruct Hg. }
  destruct Hfield as [-> | ->].
  - (* expected: copied from the heap as the builder found it *)
    rewrite Hrec1. split.
    + intros Hkept. now rewrite shallowCopy_kept.
    + intros Hty Hnull Hnode.
      destruct (shallowCopy_copied h _ Hexpected Hty Hnull Hnode)
        as (l & o & Horig & Hl & Hcopy).
      rewrite Hcopy in *. cbn [fst snd] in *.
      exists l, (fresh (dom h)). split; [exact Horig |].
      split; [reflexivity |]. split; [apply is_fresh |].
      assert (Hne : fresh (dom h) <> l).
      { intros Heq. rewrite <- Heq, fresh_not_allocated in Hl. discriminate. }
      split; [exact Hne |]. intros _.
      assert (Hkeeps : captureFailure globalNode greaterThanZero h options
                         !! fresh (dom h) = h !! l).
      { rewrite Hrun, Hl.
        rewrite lookup_setProperty_ne by (symmetry; now apply Hfresh_options).
        eapply lookup_weaken; [| exact Hext2].
        rewrite lookup_setProperty_ne by (symmetry; now apply Hfresh_options).
        apply lookup_insert_eq. }
      split; [exact Hkeeps |]. now apply copy_independent.
  - (* actual: copied from the heap in which [expected] has been replaced *)
    rewrite Hrec2.
    set (original := getProperty h (VObject options) "actual") in *.
    set (h2 := setProperty _ options "expected" _) in *.
    assert (Halloc2 : allocated h2 original).
    { apply allocated_setProperty. eapply allocated_weaken; eassumption. }
    assert (Hnode2 : isHostNode globalNode greaterThanZero h2 original
                     = isHostNode globalNode greaterThanZero h original).
    { unfold h2. rewrite isHostNode_setProperty by discriminate.
      now apply isHostNode_weaken. }
    split.
    + intros Hkept. rewrite shallowCopy_kept; [reflexivity |].
      now rewrite Hnode2.
    + intros Hty Hnull Hnode. rewrite <- Hnode2 in Hnode.
      destruct (shallowCopy_copied h2 original Halloc2 Hty Hnull Hnode)
        as (l & o & Horig & Hl & Hcopy).
      rewrite Hcopy in *. cbn [fst snd] in *.
      exists l, (fresh (dom h2)). split; [exact Horig |].
      split; [reflexivity |].
      assert (Hdom : dom h ⊆ dom h2).
      { unfold h2. rewrite dom_setProperty. now apply subseteq_dom. }
      split; [intros Hin; apply Hdom in Hin; now apply is_fresh in Hin |].
      assert (Hne : fresh (dom h2) <> l).
      { intros Heq. rewrite <- Heq, fresh_not_allocated in Hl. discriminate. }
      split; [exact Hne |]. intros Hl_options.
      assert (Hkeeps : captureFailure globalNode greaterThanZero h options
                         !! fresh (dom h2) = h !! l).
      { rewrite Hrun.
        rewrite lookup_setProperty_ne by (symmetry; now apply Hfresh_options).
        rewrite lookup_insert_eq, <- Hl. unfold h2.
        rewrite lookup_setProperty_ne by congruence.
        rewrite Horig in Hactual. destruct Hactual as [o0 Ho0].
        now rewrite (lookup_weaken _ _ _ _ Ho0 Hext1). }
      split; [exact Hkeeps |]. now apply copy_independent.
Qed.

(** C10.  For a pass (a truthy [passed]) the patched builder hands the
    engine's builder the options and the heap untouched: [expected] and
    [actual] are the references they were and nothing is allocated. *)
Theorem captureFailure_passed (h : heap) (options : loc) :
  truthy (getProperty h (VObject options) "passed") = true ->
  captureFailure globalNode greaterThanZero h options = h
  /\ buildExpectationResult globalNode greaterThanZero Result
       jasmineBuildExpectationResult h options
     = jasmineBuildExpectationResult h options
  /\ (forall key,
        getProperty (captureFailure globalNode greaterThanZero h options)
          (VObject options) key
        = getProperty h (VObject options) key)
  /\ dom (captureFailure globalNode greaterThanZero h options) = dom h.
Proof.
  intros Hpassed.
  assert (Hsame : captureFailure globalNode greaterThanZero h options = h).
  { unfold captureFailure. now rewrite Hpassed. }
  unfold buildExpectationResult. rewrite Hsame. repeat split.
Qed.

End BuilderFacts.

(** The example heap: the plain [expected] is copied to a new object that
    still reads [x = 1] after the original is set to [x = 2]; the DOM node
    in [actual] is handed on by reference. *)
Lemma captureFailure_copies_witness :
  let h' :=
    captureFailure (Some exampleNode) numberGreaterThanZero
      (exampleHeap false) 10%positive in
  exists l',
    getProperty h' (VObject 10%positive) "expected" = VObject l'
    /\ l' <> 11%positive
    /\ getProperty (setProperty h' 11%positive "x" (VNum 2)) (VObject l') "x"
       = VNum 1.
Proof.
  destruct (captureFailure_copies (Some exampleNode) numberGreaterThanZero
              (value * value) exampleBuilder (exampleHeap false) 10%positive
              "expected")
    as (_ & _ & Hcopy).
  - vm_compute. eauto.
  - reflexivity.
  - vm_compute. eauto.
  - vm_compute. eauto.
  - left. reflexivity.
  - destruct Hcopy as (l & l' & Horig & Hrec & _ & Hne & Hkeeps).
    + reflexivity.
    + discriminate.
    + reflexivity.
    + assert (Hl : l = 11%positive) by (vm_compute in Horig; congruence).
      subst l. exists l'. split; [exact Hrec |]. split; [exact Hne |].
      destruct Hkeeps as [_ Hreads]; [discriminate |].
      rewrite Hreads. reflexivity.
Defined.

Lemma captureFailure_passed_witness :
  captureFailure (Some exampleNode) numberGreaterThanZero
    (exampleHeap true) 10%positive
  = exampleHeap true.
Proof.
  apply (captureFailure_passed (Some exampleNode) numberGreaterThanZero
           (value * value) exampleBuilder (exampleHeap true) 10%positive).
  reflexivity.
Defined.

Example exampleBuilder_failure :
  buildExpectationResult (Some exampleNode) numberGreaterThanZero
    (value * value) exampleBuilder (exampleHeap false) 10%positive
  = (VObject 13%positive, VObject 12%positive).
Proof. vm_compute. reflexivity. Qed.

End FailureCaptureFacts.

(** * Further properties of the code *)

(** ** The call matchers: guards and how the three relate *)

(** A target is rejected exactly when it has no [mock] and its [calls] is
    falsy or lacks [all]. *)
Lemma untrackable_shape (actual : target) :
  trackable actual = false
  <-> target_mock actual = None
      /\ (target_calls actual = CallsFalsy
          \/ target_calls actual = CallsObject None).
Proof.
  unfold trackable, isSpyLike, isMockLike.
  destruct actual as [[|[records|]] [mockCalls|]]; simpl; split;
    try discriminate; try (intros _; auto; fail);
    try (intros [Hmock _]; discriminate Hmock);
    intros [_ [Hcalls|Hcalls]]; discriminate Hcalls.
Qed.

(** With a falsy first argument (or none) and a trackable target,
    [toBeCalled] does not throw, passes exactly when a call was recorded and
    stores the message that fits. *)
Theorem toBeCalled_counts_calls (actual : target) (arguments : list value)
    (log : printLog) :
  truthy (hd VUndefined arguments) = false ->
  trackable actual = true ->
  let calls := recordedCalls (isSpyLike actual) actual in
  toBeCalled actual arguments log
  = (Return (MatchResult (bool_decide (calls <> []))
       (MessageValue (if bool_decide (calls <> [])
                      then "Expected not to be called"
                      else "Expected to be called at least once"))),
     log).
Proof.
  intros Hfalsy [Hguard _]%trackable_guard calls.
  unfold toBeCalled. rewrite Hfalsy, Hguard. fold calls. clearbody calls.
  destruct calls; reflexivity.
Qed.

Lemma toBeCalled_counts_calls_witness :
  toBeCalled (spyWith [SpyCall [VNum 1]]) [VNull] []
  = (Return (MatchResult true (MessageValue "Expected not to be called")), []).
Proof.
  exact (toBeCalled_counts_calls (spyWith [SpyCall [VNum 1]]) [VNull] []
           eq_refl eq_refl).
Defined.

Section MatcherUseFacts.

Variable prettyPrint : value -> string.
Variable equals : value -> value -> option (list customTester) -> bool.

(** On a target that is neither spy-like nor mock-like each matcher throws
    the usage error that names it, and prints nothing; [toBeCalled] does so
    once its argument check has let the call through. *)
Theorem matchers_reject_untrackable (actual : target)
    (arguments : list value) (log : printLog) :
  target_mock actual = None ->
  target_calls actual = CallsFalsy \/ target_calls actual = CallsObject None ->
  (truthy (hd VUndefined arguments) = false ->
   toBeCalled actual arguments log
   = (Throw "toBeCalled() should be used on a mock function or a jasmine spy.",
      log))
  /\ lastCalledWith prettyPrint equals actual arguments log
     = (Throw
          "lastCalledWith() should be used on a mock function or a jasmine spy.",
        log)
  /\ toBeCalledWith prettyPrint equals actual arguments log
     = (Throw
          "toBeCalledWith() should be used on a mock function or a jasmine spy.",
        log).
Proof.
  intros Hmock Hcalls.
  assert (Hspy : isSpyLike actual = false).
  { unfold isSpyLike. destruct Hcalls as [-> | ->]; reflexivity. }
  assert (Hmocklike : isMockLike actual = false).
  { unfold isMockLike. now rewrite Hmock. }
  split; [| split].
  - intros Hfalsy. unfold toBeCalled. now rewrite Hfalsy, Hspy, Hmocklike.
  - unfold lastCalledWith. now rewrite Hspy, Hmocklike.
  - unfold toBeCalledWith. now rewrite Hspy, Hmocklike.
Qed.

(** A target that is both spy-like and mock-like is read as a spy: its
    [mock.calls] are ignored.  A target whose [calls] lacks [all] is read
    through [mock.calls]. *)
Theorem spy_records_take_precedence (records : list spyCall)
    (mockCalls : list (list value)) (arguments : list value)
    (log : printLog) :
  let both := Target (CallsObject (Some records)) (Some mockCalls) in
  let noAll := Target (CallsObject None) (Some mockCalls) in
  (recordedCalls (isSpyLike both) both = map args records
   /\ toBeCalled both arguments log
      = toBeCalled (spyWith records) arguments log
   /\ lastCalledWith prettyPrint equals both arguments log
      = lastCalledWith prettyPrint equals (spyWith records) arguments log
   /\ toBeCalledWith prettyPrint equals both arguments log
      = toBeCalledWith prettyPrint equals (spyWith records) arguments log)
  /\ (recordedCalls (isSpyLike noAll) noAll = mockCalls
      /\ toBeCalled noAll arguments log
         = toBeCalled (mockWith mockCalls) arguments log
      /\ lastCalledWith prettyPrint equals noAll arguments log
         = lastCalledWith prettyPrint equals (mockWith mockCalls) arguments log
      /\ toBeCalledWith prettyPrint equals noAll arguments log
         = toBeCalledWith prettyPrint equals (mockWith mockCalls) arguments
             log).
Proof. cbv zeta. repeat split. Qed.

(** What a returned result says about the run that made it. *)
Lemma lastCalledWith_returned (actual : target) (expected : list value)
    (log log1 : printLog) (result : matchResult) :
  lastCalledWith prettyPrint equals actual expected log = (Return result, log1) ->
  trackable actual = true
  /\ pass result
     = equals (lastCall (recordedCalls (isSpyLike actual) actual))
         (VArray expected) None.
Proof.
  unfold lastCalledWith, trackable.
  destruct (isSpyLike actual), (isMockLike actual); simpl;
    try discriminate;
    destruct (equals _ _ _); simpl; intros [= <- _]; auto.
Qed.

Lemma toBeCalledWith_returned (actual : target) (expected : list value)
    (log log1 : printLog) (result : matchResult) :
  toBeCalledWith prettyPrint equals actual expected log = (Return result, log1) ->
  trackable actual = true
  /\ pass result
     = Array_some (fun call => equals (VArray call) (VArray expected) None)
         (recordedCalls (isSpyLike actual) actual).
Proof.
  unfold toBeCalledWith, trackable.
  destruct (isSpyLike actual), (isMockLike actual); simpl;
    try discriminate;
    destruct (Array_some _ _); simpl; intros [= <- _]; auto.
Qed.

Lemma toBeCalledWith_runs (actual : target) (expected : list value)
    (log : printLog) :
  trackable actual = true ->
  exists result,
    toBeCalledWith prettyPrint equals actual expected log = (Return result, log)
    /\ pass result
       = Array_some (fun call => equals (VArray call) (VArray expected) None)
           (recordedCalls (isSpyLike actual) actual).
Proof.
  intros [_ Hguard]%trackable_guard. unfold toBeCalledWith. rewrite Hguard.
  destruct (Array_some _ _); simpl; eexists; split; reflexivity.
Qed.

(** Whenever [lastCalledWith] passes on a target with a recorded call,
    [toBeCalledWith] passes on the same target and arguments. *)
Theorem lastCalledWith_implies_toBeCalledWith (actual : target)
    (expected : list value) (log : printLog) (result : matchResult) :
  recordedCalls (isSpyLike actual) actual <> [] ->
  lastCalledWith prettyPrint equals actual expected log = (Return result, log) ->
  pass result = true ->
  exists result',
    toBeCalledWith prettyPrint equals actual expected log = (Return result', log)
    /\ pass result' = true.
Proof.
  intros Hcalls [Htrack Hpass]%lastCalledWith_returned Hpasses.
  destruct (toBeCalledWith_runs actual expected log Htrack)
    as (result' & Hrun & Hpass').
  exists result'. split; [exact Hrun |]. rewrite Hpass'.
  destruct (proj2 (last_is_Some _) Hcalls) as [lastArgs Hlast].
  unfold lastCall in Hpass. rewrite Hlast in Hpass.
  unfold Array_some. apply existsb_exists. exists lastArgs. split.
  - apply last_Some in Hlast as [older ->]. apply in_or_app. simpl. auto.
  - congruence.
Qed.

(** Whenever [toBeCalledWith] passes, [toBeCalled] passes on the same
    target. *)
Theorem toBeCalledWith_implies_toBeCalled (actual : target)
    (expected : list value) (log : printLog) (result : matchResult) :
  toBeCalledWith prettyPrint equals actual expected log = (Return result, log) ->
  pass result = true ->
  toBeCalled actual [] log
  = (Return (MatchResult true (MessageValue "Expected not to be called")), log).
Proof.
  intros [Htrack Hpass]%toBeCalledWith_returned Hpasses.
  rewrite Hpasses in Hpass.
  pose proof (toBeCalled_without_argument actual log Htrack) as Hrun.
  cbv zeta in Hrun. rewrite Hrun.
  destruct (recordedCalls (isSpyLike actual) actual); [discriminate |].
  reflexivity.
Qed.

(** Calls recorded before or after never turn a passing [toBeCalledWith]
    into a failing one. *)
Theorem toBeCalledWith_survives_more_calls (actual actual' : target)
    (earlier later : list (list value)) (expected : list value)
    (log : printLog) (result : matchResult) :
  trackable actual' = true ->
  recordedCalls (isSpyLike actual') actual'
  = (earlier ++ recordedCalls (isSpyLike actual) actual ++ later)%list ->
  toBeCalledWith prettyPrint equals actual expected log = (Return result, log) ->
  pass result = true ->
  exists result',
    toBeCalledWith prettyPrint equals actual' expected log
    = (Return result', log)
    /\ pass result' = true.
Proof.
  intros Htrack' Hmore [_ Hpass]%toBeCalledWith_returned Hpasses.
  destruct (toBeCalledWith_runs actual' expected log Htrack')
    as (result' & Hrun & Hpass').
  exists result'. split; [exact Hrun |].
  rewrite Hpass', Hmore. unfold Array_some in *.
  rewrite !existsb_app, <- Hpass, Hpasses.
  now rewrite orb_true_l, orb_true_r.
Qed.

End MatcherUseFacts.

(** A [calls] object without [all] and no [mock]: each matcher throws. *)
Lemma matchers_reject_untrackable_witness :
  lastCalledWith examplePrettyPrint exampleEquals
    (Target (CallsObject None) None) [VNum 1] []
  = (Throw "lastCalledWith() should be used on a mock function or a jasmine spy.",
     [])
  /\ toBeCalledWith examplePrettyPrint exampleEquals
       (Target (CallsObject None) None) [VNum 1] []
     = (Throw
          "toBeCalledWith() should be used on a mock function or a jasmine spy.",
        []).
Proof.
  destruct (matchers_reject_untrackable examplePrettyPrint exampleEquals
              (Target (CallsObject None) None) [VNum 1] [])
    as (_ & Hlast & Hwith).
  - reflexivity.
  - right. reflexivity.
  - split; assumption.
Defined.

Lemma lastCalledWith_implies_toBeCalledWith_witness :
  exists result',
    toBeCalledWith examplePrettyPrint exampleEquals
      (mockWith [[VNum 1]; [VNum 2]; [VNum 3]]) [VNum 3] []
    = (Return result', [])
    /\ pass result' = true.
Proof.
  eapply (lastCalledWith_implies_toBeCalledWith examplePrettyPrint
            exampleEquals (mockWith [[VNum 1]; [VNum 2]; [VNum 3]])
            [VNum 3] []).
  - discriminate.
  - reflexivity.
  - reflexivity.
Defined.

Lemma toBeCalledWith_implies_toBeCalled_witness :
  toBeCalled (mockWith [[VNum 1; VNum 2]; [VNum 3; VNum 4]]) [] []
  = (Return (MatchResult true (MessageValue "Expected not to be called")), []).
Proof.
  eapply (toBeCalledWith_implies_toBeCalled examplePrettyPrint exampleEquals
            (mockWith [[VNum 1; VNum 2]; [VNum 3; VNum 4]])
            [VNum 1; VNum 2] []).
  - reflexivity.
  - reflexivity.
Defined.

(** A mock passes on [[1, 2]]; the spy that recorded a call before and a
    call after it passes too. *)
Lemma toBeCalledWith_survives_more_calls_witness :
  exists result',
    toBeCalledWith examplePrettyPrint exampleEquals
      (spyWith [SpyCall [VNum 0]; SpyCall [VNum 1; VNum 2]; SpyCall [VNum 9]])
      [VNum 1; VNum 2] []
    = (Return result', [])
    /\ pass result' = true.
Proof.
  eapply (toBeCalledWith_survives_more_calls examplePrettyPrint exampleEquals
            (mockWith [[VNum 1; VNum 2]])
            (spyWith [SpyCall [VNum 0]; SpyCall [VNum 1; VNum 2];
                      SpyCall [VNum 9]])
            [[VNum 0]] [[VNum 9]] [VNum 1; VNum 2] []).
  - reflexivity.
  - reflexivity.
  - reflexivity.
  - reflexivity.
Defined.

(** ** The messages of the matchers, read *)

Section MessageFacts.

Variable prettyPrint : value -> string.
Variable equals : value -> value -> option (list customTester) -> bool.

(** The message of a passing result, shown when the assertion is negated,
    is the fixed sentence followed by the pretty-printed expected arguments:
    reading it prints these arguments and none of the recorded calls. *)
Theorem passing_message_omits_calls (actual : target)
    (expected : list value) (log : printLog) (result : matchResult) :
  pass result = true ->
  (toBeCalledWith prettyPrint equals actual expected log
   = (Return result, log) ->
   forall log',
     readMessage result log'
     = ("Shouldn't have been called with" ++ nl
          ++ prettyPrint (VArray expected),
        (log' ++ [VArray expected])%list))
  /\ (lastCalledWith prettyPrint equals actual expected log
      = (Return result, log) ->
      forall log',
        readMessage result log'
        = ("Shouldn't have been last called with" ++ nl
             ++ prettyPrint (VArray expected),
           (log' ++ [VArray expected])%list)).
Proof.
  intros Hpasses. split; intros Hrun log'.
  - unfold toBeCalledWith in Hrun.
    destruct (negb (isMockLike actual) && negb (isSpyLike actual));
      [discriminate |].
    destruct (Array_some _ _) eqn:Hfound; simpl in Hrun;
      injection Hrun as <-; [reflexivity | discriminate Hpasses].
  - unfold lastCalledWith in Hrun.
    destruct (negb (isSpyLike actual) && negb (isMockLike actual));
      [discriminate |].
    destruct (equals _ _ _) eqn:Hlast; simpl in Hrun;
      injection Hrun as <-; [reflexivity | discriminate Hpasses].
Qed.

End MessageFacts.

Lemma passing_message_omits_calls_witness :
  exists result,
    lastCalledWith examplePrettyPrint exampleEquals
      (mockWith [[VNum 1]; [VNum 2]; [VNum 3]]) [VNum 3] []
    = (Return result, [])
    /\ readMessage result []
       = ("Shouldn't have been last called with" ++ nl ++ "[3]",
          [VArray [VNum 3]]).
Proof.
  eexists. split; [reflexivity |].
  eapply (passing_message_omits_calls examplePrettyPrint exampleEquals
            (mockWith [[VNum 1]; [VNum 2]; [VNum 3]]) [VNum 3] []);
    reflexivity.
Defined.

(** ** The diagnostic renderer at its bounds *)

(** [l.slice(0)], and so [l.slice(-0)], is the whole array. *)
Lemma Array_slice_zero {A : Type} (l : list A) : Array_slice 0 l = l.
Proof.
  unfold Array_slice. cbv zeta. change (0 <? 0) with false. cbv iota.
  replace (Z.to_nat (Z.min 0 (Z.of_nat (length l)))) with 0%nat by lia.
  apply drop_0.
Qed.

Section RendererFacts.

Variable prettyPrint : value -> string.

(** For a positive limit [getActualCalls] hands the pretty-printer the last
    calls only, at most [limit] of them, the oldest of these first (the text
    lists them newest first). *)
Theorem getActualCalls_prints_at_most_limit (calls : list (list value))
    (limit : Z) (log : printLog) :
  0 < limit ->
  let printed := drop (length calls - Z.to_nat limit) calls in
  snd (getActualCalls prettyPrint calls limit log)
  = (log ++ map VArray printed)%list
  /\ (length printed <= Z.to_nat limit)%nat
  /\ length printed = Nat.min (Z.to_nat limit) (length calls)
  /\ exists older, calls = (older ++ printed)%list.
Proof.
  intros Hlimit printed.
  rewrite getActualCalls_log, Array_slice_last by assumption. fold printed.
  split; [reflexivity |].
  assert (Hlen : length printed
                 = Nat.min (Z.to_nat limit) (length calls)).
  { unfold printed. rewrite length_drop. lia. }
  split; [lia |]. split; [exact Hlen |].
  exists (take (length calls - Z.to_nat limit) calls).
  unfold printed. now rewrite take_drop.
Qed.

(** Without a recorded call and with a limit that is not negative, the text
    is the plural header alone and nothing is printed. *)
Theorem getActualCalls_without_calls (limit : Z) (log : printLog) :
  0 <= limit ->
  getActualCalls prettyPrint [] limit log
  = (nl ++ "Actual calls:" ++ nl, log).
Proof.
  intros Hlimit. unfold getActualCalls, bind, Array_slice. simpl length.
  rewrite drop_nil. simpl mapM. unfold ret. simpl rev.
  change (Z.of_nat 0) with 0.
  destruct (Z.ltb_spec 0 (0 - limit)) as [Hcount|_]; [lia |].
  reflexivity.
Qed.

(** With limit 0 the slice [calls.slice(-0)] is the whole array: every call
    is printed and listed, and every call is counted among the others
    too. *)
Theorem getActualCalls_limit_zero (calls : list (list value))
    (log : printLog) :
  getActualCalls prettyPrint calls 0 log
  = (nl ++ "Actual call"
        ++ (if decide (length calls = 1%nat) then "" else "s") ++ ":" ++ nl
        ++ join ("," ++ nl)
             (map (fun call => prettyPrint (VArray call)) (rev calls))
        ++ match calls with
           | [] => ""
           | _ :: _ =>
               nl ++ "and " ++ string_of_Z (Z.of_nat (length calls))
                  ++ " other call"
                  ++ (if decide (length calls = 1%nat) then "" else "s")
                  ++ "."
           end,
     (log ++ map VArray calls)%list).
Proof.
  unfold getActualCalls, bind. rewrite mapM_prettyPrint. unfold ret.
  change (- 0) with 0. rewrite Array_slice_zero, map_rev, Z.sub_0_r.
  assert (Hone : (Z.of_nat (length calls) =? 1)
                 = bool_decide (length calls = 1%nat)).
  { destruct (Z.eqb_spec (Z.of_nat (length calls)) 1) as [H|H];
      [rewrite bool_decide_eq_true_2 | rewrite bool_decide_eq_false_2];
      (reflexivity || lia). }
  rewrite Hone. f_equal. do 5 f_equal.
  - now destruct (decide (length calls = 1%nat));
      [rewrite bool_decide_eq_true_2 | rewrite bool_decide_eq_false_2].
  - destruct calls as [|call calls]; [reflexivity |].
    destruct (Z.ltb_spec 0 (Z.of_nat (length (call :: calls)))) as [_|H];
      [| simpl in H; lia].
    now destruct (decide (length (call :: calls) = 1%nat));
      [rewrite bool_decide_eq_true_2 | rewrite bool_decide_eq_false_2].
Qed.

End RendererFacts.

Lemma getActualCalls_prints_at_most_limit_witness :
  snd (getActualCalls examplePrettyPrint
         [[VNum 1]; [VNum 2]; [VNum 3]; [VNum 4]] CALL_PRINT_LIMIT [])
  = [VArray [VNum 2]; VArray [VNum 3]; VArray [VNum 4]].
Proof.
  destruct (getActualCalls_prints_at_most_limit examplePrettyPrint
              [[VNum 1]; [VNum 2]; [VNum 3]; [VNum 4]] CALL_PRINT_LIMIT [])
    as (Hlog & _).
  - unfold CALL_PRINT_LIMIT. lia.
  - rewrite Hlog. reflexivity.
Defined.

Lemma getActualCalls_without_calls_witness :
  getActualCalls examplePrettyPrint [] LAST_CALL_PRINT_LIMIT []
  = (nl ++ "Actual calls:" ++ nl, []).
Proof.
  apply (getActualCalls_without_calls examplePrettyPrint
           LAST_CALL_PRINT_LIMIT []).
  unfold LAST_CALL_PRINT_LIMIT. lia.
Defined.

Example getActualCalls_limit_zero_two_calls :
  fst (getActualCalls examplePrettyPrint [[VNum 1]; [VNum 2]] 0 [])
  = nl ++ "Actual calls:" ++ nl ++ "[2]," ++ nl ++ "[1]" ++ nl
       ++ "and 2 other calls.".
Proof. reflexivity. Qed.

(** ** The sequence tester with its operands swapped *)

Section TesterRelationFacts.

Variable equals : value -> value -> option (list customTester) -> bool.

Lemma iterableEquality_loop_sym (xs ys : list value) :
  (forall i x y, xs !! i = Some x -> ys !! i = Some y ->
     equals x y (Some [IterableEquality])
     = equals y x (Some [IterableEquality])) ->
  iterableEquality_loop equals xs ys = iterableEquality_loop equals ys xs.
Proof.
  revert ys. induction xs as [|x xs IH]; intros [|y ys] Hsym; simpl; trivial.
  rewrite (Hsym 0%nat x y eq_refl eq_refl).
  destruct (equals y x _); simpl; trivial.
  apply IH. intros i x' y' Hx Hy. exact (Hsym (S i) x' y' Hx Hy).
Qed.

(** Swapping the operands never changes whether the tester applies, and
    when the host equality answers alike both ways round on the elements
    met in lockstep, it does not change the decision either. *)
Theorem iterableEquality_symmetric (a b : value) :
  (iterableEquality equals a b = None <-> iterableEquality equals b a = None)
  /\ ((forall i x y,
         elementsOf a !! i = Some x -> elementsOf b !! i = Some y ->
         equals x y (Some [IterableEquality])
         = equals y x (Some [IterableEquality])) ->
      iterableEquality equals a b = iterableEquality equals b a).
Proof.
  split.
  - rewrite !iterableEquality_guard. tauto.
  - intros Hsym.
    destruct a as [| | | | | |elems|c [xs|] ps]; try reflexivity;
      destruct b as [| | | | | |elems'|c' [ys|] qs]; try reflexivity.
    unfold iterableEquality; simpl in *.
    destruct (decide (c = c')) as [->|Hne].
    + rewrite !bool_decide_eq_true_2 by reflexivity. simpl.
      f_equal. now apply iterableEquality_loop_sym.
    + rewrite !bool_decide_eq_false_2 by congruence. reflexivity.
Qed.

End TesterRelationFacts.

Lemma iterableEquality_symmetric_witness :
  iterableEquality exampleEquals
    (VObject 7 (Some [VNum 1; VNum 2]) []) (VObject 7 (Some [VNum 1]) [])
  = iterableEquality exampleEquals
      (VObject 7 (Some [VNum 1]) []) (VObject 7 (Some [VNum 1; VNum 2]) []).
Proof.
  apply (iterableEquality_symmetric exampleEquals
           (VObject 7 (Some [VNum 1; VNum 2]) [])
           (VObject 7 (Some [VNum 1]) [])).
  intros [|[|i]] x y Hx Hy; simpl in Hx, Hy; try discriminate.
  injection Hx as <-. injection Hy as <-. reflexivity.
Defined.

(** ** FailureCapture: what the patch leaves alone *)

Module FailureCaptureFrame.

Import FailureCapture FailureCaptureFacts.

Section FrameFacts.

Variable globalNode : option loc.
Variable greaterThanZero : value -> bool.

(** The heap after the patch, whatever [passed] is: two copies at most,
    each followed by a write to [options]. *)
Lemma captureFailure_steps (h : heap) (options : loc) :
  captureFailure globalNode greaterThanZero h options = h
  \/ exists h1 h3 expected actual,
       h ⊆ h1
       /\ setProperty h1 options "expected" expected ⊆ h3
       /\ captureFailure globalNode greaterThanZero h options
          = setProperty h3 options "actual" actual.
Proof.
  unfold captureFailure. destruct (negb _); [| now left]. right.
  pose proof (shallowCopy_extends globalNode greaterThanZero h
                (getProperty h (VObject options) "expected")) as Hext1.
  destruct (shallowCopy _ _ h _) as [expected h1]. simpl in Hext1.
  set (h2 := setProperty h1 options "expected" expected).
  pose proof (shallowCopy_extends globalNode greaterThanZero h2
                (getProperty h2 (VObject options) "actual")) as Hext2.
  destruct (shallowCopy _ _ h2 _) as [actual h3]. simpl in Hext2.
  exists h1, h3, expected, actual. auto.
Qed.

(** The patch writes to the options object and to nothing else that
    exists: every other object of the heap, the originals of [expected] and
    [actual] among them, is afterwards what it was, and no object is
    removed. *)
Theorem captureFailure_leaves_objects (h : heap) (options l : loc) :
  l <> options ->
  is_Some (h !! l) ->
  captureFailure globalNode greaterThanZero h options !! l = h !! l
  /\ dom h ⊆ dom (captureFailure globalNode greaterThanZero h options).
Proof.
  intros Hne [o Ho].
  destruct (captureFailure_steps h options)
    as [-> | (h1 & h3 & expected & actual & Hext1 & Hext2 & ->)];
    [split; reflexivity |].
  split.
  - rewrite lookup_setProperty_ne by congruence. rewrite Ho.
    eapply lookup_weaken; [| exact Hext2].
    rewrite lookup_setProperty_ne by congruence.
    eapply lookup_weaken; eassumption.
  - rewrite dom_setProperty.
    etransitivity; [apply subseteq_dom, Hext1 |].
    etransitivity; [| apply subseteq_dom, Hext2].
    now rewrite dom_setProperty.
Qed.

(** Of the options object the patch changes [expected] and [actual] only:
    every other property ([passed], [message], [matcherName], ...) reads as
    before, and so does [instanceof]. *)
Theorem captureFailure_keeps_other_properties (h : heap) (options : loc)
    (key : string) (C : loc) :
  is_Some (h !! options) ->
  key <> "expected" -> key <> "actual" ->
  getProperty (captureFailure globalNode greaterThanZero h options)
    (VObject options) key
  = getProperty h (VObject options) key
  /\ isInstanceOf (captureFailure globalNode greaterThanZero h options)
       (VObject options) C
     = isInstanceOf h (VObject options) C.
Proof.
  intros Hoptions Hexpected Hactual.
  destruct (captureFailure_steps h options)
    as [-> | (h1 & h3 & expected & actual & Hext1 & Hext2 & ->)];
    [split; reflexivity |].
  assert (Hoptions1 : allocated h1 (VObject options))
    by (eapply allocated_weaken; [exact Hext1 | exact Hoptions]).
  assert (Hoptions2 :
            allocated (setProperty h1 options "expected" expected)
              (VObject options))
    by now apply allocated_setProperty.
  split.
  - rewrite getProperty_setProperty_key by congruence.
    rewrite (getProperty_weaken _ h3 _ _ Hext2 Hoptions2).
    rewrite getProperty_setProperty_key by congruence.
    now apply getProperty_weaken.
  - rewrite isInstanceOf_setProperty.
    rewrite (isInstanceOf_weaken _ h3 _ _ Hext2 Hoptions2).
    rewrite isInstanceOf_setProperty.
    now apply isInstanceOf_weaken.
Qed.

(** When [expected] and [actual] of a failure are one and the same object,
    the patch copies it twice: the engine's builder receives two distinct
    new objects, each holding what the original holds. *)
Theorem captureFailure_separates_aliases (h : heap) (options l : loc) :
  is_Some (h !! options) ->
  truthy (getProperty h (VObject options) "passed") = false ->
  getProperty h (VObject options) "expected" = VObject l ->
  getProperty h (VObject options) "actual" = VObject l ->
  is_Some (h !! l) ->
  l <> options ->
  isHostNode globalNode greaterThanZero h (VObject l) = false ->
  let h' := captureFailure globalNode greaterThanZero h options in
  exists l1 l2,
    getProperty h' (VObject options) "expected" = VObject l1
    /\ getProperty h' (VObject options) "actual" = VObject l2
    /\ l1 <> l2 /\ l1 <> l /\ l2 <> l
    /\ h' !! l1 = h !! l /\ h' !! l2 = h !! l.
Proof.
  intros Hoptions Hfailed Hexpected Hactual Hl Hne Hnode. cbv zeta.
  pose proof (captureFailure_failed globalNode greaterThanZero h options
                Hfailed Hoptions) as Hsteps.
  cbv zeta in Hsteps. rewrite Hexpected, Hactual in Hsteps.
  destruct Hsteps as (Hrun & Hext1 & Hext2 & Hoptions2 & Hrec1 & Hrec2).
  assert (Hfresh_options : forall g : heap,
            is_Some (g !! options) -> fresh (dom g) <> options).
  { intros g Hg Heq. rewrite <- Heq in Hg.
    rewrite fresh_not_allocated in Hg. now destruct Hg. }
  destruct (shallowCopy_copied globalNode greaterThanZero h (VObject l)
              Hl eq_refl ltac:(discriminate) Hnode)
    as (l0 & o & Hl0 & Ho & Hcopy1).
  injection Hl0 as <-.
  rewrite Hcopy1 in *. cbn [fst snd] in *.
  set (l1 := fresh (dom h)) in *.
  set (h2 := setProperty (<[l1 := o]> h) options "expected" (VObject l1)) in *.
  assert (Hl1 : l1 <> options) by now apply Hfresh_options.
  assert (Hl1l : l1 <> l).
  { intros Heq. unfold l1 in Heq. rewrite <- Heq, fresh_not_allocated in Ho.
    discriminate. }
  assert (Hh2l : h2 !! l = Some o).
  { unfold h2. rewrite lookup_setProperty_ne by congruence.
    now rewrite lookup_insert_ne. }
  assert (Hh2l1 : h2 !! l1 = Some o).
  { unfold h2. rewrite lookup_setProperty_ne by congruence.
    apply lookup_insert_eq. }
  assert (Hnode2 : isHostNode globalNode greaterThanZero h2 (VObject l)
                   = false).
  { unfold h2. rewrite isHostNode_setProperty by discriminate.
    rewrite (isHostNode_weaken _ _ h); trivial;
      try apply insert_subseteq, fresh_not_allocated. }
  destruct (shallowCopy_copied globalNode greaterThanZero h2 (VObject l)
              (ex_intro _ o Hh2l) eq_refl ltac:(discriminate) Hnode2)
    as (l0 & o2 & Hl0 & Ho2 & Hcopy2).
  injection Hl0 as <-.
  rewrite Hcopy2 in *. cbn [fst snd] in *.
  set (l2 := fresh (dom h2)) in *.
  assert (Ho2o : o2 = o) by congruence. subst o2.
  assert (Hl2 : l2 <> options) by now apply Hfresh_options.
  assert (Hl2l : l2 <> l).
  { intros Heq. unfold l2 in Heq.
    rewrite <- Heq, fresh_not_allocated in Hh2l. discriminate. }
  assert (Hl12 : l1 <> l2).
  { intros Heq. unfold l2 in Heq.
    rewrite Heq, fresh_not_allocated in Hh2l1. discriminate. }
  exists l1, l2. rewrite Hrec1, Hrec2, Hrun, Ho.
  repeat split; trivial.
  - rewrite lookup_setProperty_ne by congruence.
    rewrite lookup_insert_ne by congruence. exact Hh2l1.
  - rewrite lookup_setProperty_ne by congruence.
    apply lookup_insert_eq.
Qed.

End FrameFacts.

(** In the example heap the plain object at 11 and the DOM node at 12 are
    after the patch what they were. *)
Lemma captureFailure_leaves_objects_witness :
  captureFailure (Some exampleNode) numberGreaterThanZero (exampleHeap false)
    10%positive !! 11%positive
  = Some (Object [] {[ "x" := VNum 1 ]}).
Proof.
  destruct (captureFailure_leaves_objects (Some exampleNode)
              numberGreaterThanZero (exampleHeap false) 10%positive
              11%positive)
    as [Hsame _].
  - discriminate.
  - vm_compute. eauto.
  - etransitivity; [exact Hsame | reflexivity].
Defined.

Lemma captureFailure_keeps_other_properties_witness :
  getProperty
    (captureFailure (Some exampleNode) numberGreaterThanZero aliasedHeap
       10%positive)
    (VObject 10%positive) "message"
  = VStr "Expected {x: 1} not to be {x: 1}.".
Proof.
  destruct (captureFailure_keeps_other_properties (Some exampleNode)
              numberGreaterThanZero aliasedHeap 10%positive "message"
              exampleNode)
    as [Hsame _].
  - vm_compute. eauto.
  - discriminate.
  - discriminate.
  - rewrite Hsame. reflexivity.
Defined.

Lemma captureFailure_separates_aliases_witness :
  exists l1 l2,
    exampleBuilder
      (captureFailure (Some exampleNode) numberGreaterThanZero aliasedHeap
         10%positive)
      10%positive
    = (VObject l1, VObject l2)
    /\ l1 <> l2.
Proof.
  destruct (captureFailure_separates_aliases (Some exampleNode)
              numberGreaterThanZero aliasedHeap 10%positive 11%positive)
    as (l1 & l2 & Hexpected & Hactual & Hne & _).
  - vm_compute. eauto.
  - reflexivity.
  - reflexivity.
  - reflexivity.
  - vm_compute. eauto.
  - discriminate.
  - reflexivity.
  - exists l1, l2. unfold exampleBuilder.
    rewrite Hexpected, Hactual. split; [reflexivity | exact Hne].
Defined.

End FailureCaptureFrame.

(** ** One view of spies and mocks *)

Section AccessorFacts.

Variable prettyPrint : value -> string.
Variable equals : value -> value -> option (list customTester) -> bool.

(** The matchers see a target through its recorded calls only: on two
    trackable targets with the same calls in the same order, be they spies
    or mocks, each matcher returns the same result, message included. *)
Theorem matchers_see_recorded_calls_only (actual actual' : target)
    (arguments : list value) (log : printLog) :
  trackable actual = true ->
  trackable actual' = true ->
  recordedCalls (isSpyLike actual) actual
  = recordedCalls (isSpyLike actual') actual' ->
  toBeCalled actual arguments log = toBeCalled actual' arguments log
  /\ lastCalledWith prettyPrint equals actual arguments log
     = lastCalledWith prettyPrint equals actual' arguments log
  /\ toBeCalledWith prettyPrint equals actual arguments log
     = toBeCalledWith prettyPrint equals actual' arguments log.
Proof.
  intros [Hguard Hguard_with]%trackable_guard
         [Hguard' Hguard_with']%trackable_guard Hsame.
  unfold toBeCalled, lastCalledWith, toBeCalledWith.
  rewrite Hguard, Hguard', Hguard_with, Hguard_with', Hsame.
  repeat split.
Qed.

End AccessorFacts.

(** A spy and a mock with the history [[1, 2], [3]]. *)
Lemma matchers_see_recorded_calls_only_witness :
  lastCalledWith examplePrettyPrint exampleEquals
    (spyWith [SpyCall [VNum 1; VNum 2]; SpyCall [VNum 3]]) [VNum 3] []
  = lastCalledWith examplePrettyPrint exampleEquals
      (mockWith [[VNum 1; VNum 2]; [VNum 3]]) [VNum 3] [].
Proof.
  apply (matchers_see_recorded_calls_only examplePrettyPrint exampleEquals
           (spyWith [SpyCall [VNum 1; VNum 2]; SpyCall [VNum 3]])
           (mockWith [[VNum 1; VNum 2]; [VNum 3]]) [VNum 3] []);
    reflexivity.
Defined.
